(** * A shallow embedding of the York geodata API (app/routes.py, app/main.py)

    The route handlers are embedded as programs of a small state, log and
    exception monad over the five module-level GeoDataFrames.  The geometry
    library (shapely, pyproj, geopandas predicates) and [json.loads] are
    interfaces of the embedding; pandas' positional machinery (column
    assignment, boolean-mask selection, [idxmin], [groupby().size()],
    [Index.map]) is written out on lists and finite maps. *)

From Stdlib Require Import ZArith Lia.
From Stdlib Require Import Floats.SpecFloat.
From Stdlib Require Import Strings.Byte.
From stdpp Require Import gmap strings list.

Set Warnings "-register-all".

Local Open Scope string_scope.
Local Open Scope Z_scope.

(** ** Python floats: IEEE 754 binary64 *)

Module F64.
Definition float : Type := spec_float.
Definition prec : Z := 53.
Definition emax : Z := 1024.

Definition leb (x y : float) : bool := SFleb x y.
Definition ltb (x y : float) : bool := SFltb x y.
Definition mul (x y : float) : float := SFmul prec emax x y.
Definition opp (x : float) : float := SFopp x.

Definition is_nan (x : float) : bool :=
  match x with S754_nan => true | _ => false end.

(** [math.isfinite]: neither NaN nor an infinity. *)
Definition is_finite (x : float) : bool :=
  match x with S754_zero _ | S754_finite _ _ _ => true | _ => false end.

(** An integer literal used as a float operand. *)
Definition of_Z (z : Z) : float := binary_normalize prec emax z 0 false.

Definition inf : float := S754_infinity false.

(** The order of the numbers as propositions; NaN is related to nothing. *)
Definition le (x y : float) : Prop :=
  SFcompare x y = Some Lt \/ SFcompare x y = Some Eq.
Definition lt (x y : float) : Prop := SFcompare x y = Some Lt.

(** [lo <= x <= hi] *)
Definition in_range (lo hi x : float) : Prop := le lo x /\ le x hi.
End F64.

Abbreviation float := F64.float.

(** ** Python values, exceptions, responses *)

Inductive value : Type :=
  | VNone
  | VBool (b : bool)
  | VInt (z : Z)
  | VFloat (f : float)
  | VStr (s : string)
  | VList (l : list value)
  | VDict (d : list (string * value)).

Inductive exn : Type :=
  | ValueError (msg : string)
  | TypeError (msg : string)
  | KeyError (key : string)
  | AttributeError (msg : string)
  | RecursionError (msg : string)
  | GEOSException (msg : string).

(** [str(e)] as used in the error bodies of [upload_geojson]. *)
Definition exn_str (e : exn) : string :=
  match e with
  | ValueError msg | TypeError msg | AttributeError msg
  | RecursionError msg | GEOSException msg => msg
  | KeyError key => "'" ++ key ++ "'"
  end.

Definition is_ValueError (e : exn) : bool :=
  match e with ValueError _ => true | _ => false end.

Inductive response : Type :=
  | JSONResponse (status_code : Z) (content : value)
  | HTMLResponse (content : string).

Definition status_of (r : response) : Z :=
  match r with
  | JSONResponse status_code _ => status_code
  | HTMLResponse _ => 200
  end.

(** What [json.dumps(content, allow_nan=False)] accepts: no float in the
    content, at any depth, is NaN or an infinity.  Strings stand for text
    that has a UTF-8 encoding. *)
Fixpoint json_compliant (content : value) : bool :=
  match content with
  | VFloat f => F64.is_finite f
  | VList l => forallb json_compliant l
  | VDict d => forallb (fun kv => json_compliant (snd kv)) d
  | _ => true
  end.

(** [JSONResponse(status_code=..., content=...)]: the body is rendered
    when the response is built, and a content that is not JSON compliant
    raises [ValueError] there. *)
Definition rendered (status_code : Z) (content : value) : exn + response :=
  if json_compliant content then inr (JSONResponse status_code content)
  else inl (ValueError "Out of range float values are not JSON compliant").

(** What a handler leaves behind besides its response: calls into the
    geometry and JSON libraries, and records sent to the logger. *)
Inductive level : Type := WARNING | ERROR.

Inductive event : Type :=
  | EvLog (lvl : level) (msg : string)
  | EvToCrs
  | EvDistance
  | EvBuffer
  | EvWithin
  | EvSjoin
  | EvFileRead
  | EvJsonLoads.

Definition is_geometry_call (ev : event) : bool :=
  match ev with
  | EvToCrs | EvDistance | EvBuffer | EvWithin | EvSjoin => true
  | _ => false
  end.

Definition is_parse_call (ev : event) : bool :=
  match ev with EvJsonLoads => true | _ => false end.

(** Exceptions as a result type. *)
#[global] Instance exn_ret : MRet (sum exn) := fun _ a => inr a.
#[global] Instance exn_bind : MBind (sum exn) := fun _ _ f m =>
  match m with inl e => inl e | inr a => f a end.

Fixpoint mapE {A B : Type} (f : A -> exn + B) (l : list A) : exn + list B :=
  match l with
  | [] => inr []
  | x :: l' =>
      match f x with
      | inl e => inl e
      | inr y => match mapE f l' with inl e => inl e | inr ys => inr (y :: ys) end
      end
  end.

(** ** The geometry library *)

(** shapely geometries with the operations the handlers call.  [Point x y]
    is the constructor [shapely.geometry.Point(x, y)]; [geom_xy] is the
    pair of attributes [.x] and [.y], defined on points only;
    [crs_transform epsg] is pyproj's reprojection from EPSG:4326 (the CRS
    of GeoJSON data) to the given EPSG code; [distance], [buffer] and
    [within] are the shapely methods of those names.  The distance of two
    geometries is a number (a non-negative real, in the spec's data
    model), never NaN. *)
Class GeoLib : Type := {
  geom : Type;
  Point : float -> float -> geom;
  geom_xy : geom -> option (float * float);
  crs_transform : Z -> geom -> geom;
  distance : geom -> geom -> float;
  buffer : geom -> float -> geom;
  within : geom -> geom -> bool;
  distance_not_nan : forall a b, F64.is_nan (distance a b) = false
}.

(** [json.loads] on bytes: the parsed value, or the exception raised: a
    [JSONDecodeError] or a [UnicodeDecodeError] (both are [ValueError]s)
    for content that is no JSON text, a [RecursionError] for content
    nested too deeply. *)
Class JsonLib : Type := {
  json_loads : list byte -> exn + value
}.

(** ** GeoDataFrames *)

(** A frame read by [gpd.read_file] has the default index 0..n-1, a
    geometry column and property columns; a row is its geometry and the
    cells of the other columns by column name. *)
Record Row `{GeoLib} : Type := mkRow {
  geometry : geom;
  props : gmap string value
}.

Abbreviation GeoDataFrame := (list Row).

(** The module-level globals of app/routes.py. *)
Record world `{GeoLib} : Type := mkWorld {
  gp_gdf : GeoDataFrame;
  pharmacy_gdf : GeoDataFrame;
  bins_gdf : GeoDataFrame;
  nature_reserves_gdf : GeoDataFrame;
  conservation_areas_gdf : GeoDataFrame
}.

Section Routes.
Context `{GeoLib} `{JsonLib}.

(** ** The handler monad *)

(** A handler runs against the globals and the log; it ends with a value
    or with an exception that nothing caught. *)
Definition M (A : Type) : Type :=
  world -> list event -> (exn + A) * world * list event.

#[global] Instance M_ret : MRet M := fun _ a w l => (inr a, w, l).
#[global] Instance M_bind : MBind M := fun _ _ f m w l =>
  match m w l with
  | (inl e, w', l') => (inl e, w', l')
  | (inr a, w', l') => f a w' l'
  end.

Definition raise {A : Type} (e : exn) : M A := fun w l => (inl e, w, l).
Definition lift {A : Type} (r : exn + A) : M A := fun w l => (r, w, l).
Definition emit (ev : event) : M unit := fun w l => (inr tt, w, (l ++ [ev])%list).
Definition gets {A : Type} (f : world -> A) : M A := fun w l => (inr (f w), w, l).
Definition modify (f : world -> world) : M unit := fun w l => (inr tt, f w, l).

(** [try: body except ValueError as ve: on_value ve
     except Exception as e: on_other e] *)
Definition try_except {A : Type} (body : M A)
    (on_value on_other : exn -> M A) : M A := fun w l =>
  match body w l with
  | (inl e, w', l') => (if is_ValueError e then on_value e else on_other e) w' l'
  | (inr a, w', l') => (inr a, w', l')
  end.

(** A request is served against the current globals with a fresh log. *)
Definition run {A : Type} (m : M A) (w : world) : (exn + A) * world * list event :=
  m w [].

(** ** pandas and geopandas operations *)

(** [gdf.empty] *)
Definition empty (gdf : GeoDataFrame) : bool :=
  match gdf with [] => true | _ :: _ => false end.

(** [gdf.to_crs(epsg=crs)]: a new frame, each geometry reprojected. *)
Definition to_crs (crs : Z) (gdf : GeoDataFrame) : GeoDataFrame :=
  map (fun row => mkRow _ (crs_transform crs (geometry row)) (props row)) gdf.

(** [gdf.geometry.distance(other)]: one float per row, in row order. *)
Definition geometry_distance (gdf : GeoDataFrame) (other : geom) : list float :=
  map (fun row => distance (geometry row) other) gdf.

(** [gdf.geometry.within(other)]: one bool per row, in row order. *)
Definition geometry_within (gdf : GeoDataFrame) (other : geom) : list bool :=
  map (fun row => within (geometry row) other) gdf.

(** [gdf[column] = values]: the cell of each row is replaced, or added. *)
Definition set_column (column : string) (values : list value)
    (gdf : GeoDataFrame) : GeoDataFrame :=
  zip_with (fun row v => mkRow _ (geometry row) (<[column := v]> (props row)))
           gdf values.

(** [gdf[mask]] for a boolean series [mask]: the rows whose flag is
    [True], in frame order. *)
Fixpoint mask_select (gdf : GeoDataFrame) (mask : list bool) : GeoDataFrame :=
  match gdf, mask with
  | row :: gdf', b :: mask' =>
      if b then row :: mask_select gdf' mask' else mask_select gdf' mask'
  | _, _ => []
  end.

(** numpy's [argmin]: position of the first occurrence of the minimum. *)
Fixpoint argmin_from (best : nat) (best_value : float) (i : nat)
    (values : list float) : nat :=
  match values with
  | [] => best
  | x :: values' =>
      if F64.ltb x best_value
      then argmin_from i x (S i) values'
      else argmin_from best best_value (S i) values'
  end.

Definition nan_to_inf (x : float) : float :=
  if F64.is_nan x then F64.inf else x.

(** [series.idxmin()]: NaN is skipped (it takes part as +inf); on a
    series without a number the call raises. *)
Definition idxmin (series : list float) : exn + nat :=
  if forallb F64.is_nan series
  then inl (ValueError "Encountered all NA values")
  else
    match nan_to_inf <$> series with
    | [] => inl (ValueError "attempt to get argmin of an empty sequence")
    | x :: values => inr (argmin_from 0%nat x 1%nat values)
    end.

(** [gdf.loc[label]] on the default index. *)
Definition loc (gdf : GeoDataFrame) (label : nat) : exn + Row :=
  match gdf !! label with
  | Some row => inr row
  | None => inl (KeyError "label")
  end.

(** [row[column]] for a property column. *)
Definition getitem (row : Row) (column : string) : exn + value :=
  match props row !! column with
  | Some v => inr v
  | None => inl (KeyError column)
  end.

(** [row["geometry"].x] and [.y], the coordinates of a point. *)
Definition geometry_xy (row : Row) : exn + float * float :=
  match geom_xy (geometry row) with
  | Some xy => inr xy
  | None => inl (AttributeError "object has no attribute 'x'")
  end.

(** The labels of the rows of [right], counted from [label], that the
    geometry [g] is within. *)
Fixpoint within_labels (g : geom) (right : GeoDataFrame) (label : nat) : list nat :=
  match right with
  | [] => []
  | r :: right' =>
      if within g (geometry r)
      then label :: within_labels g right' (S label)
      else within_labels g right' (S label)
  end.

Fixpoint sjoin_from (label : nat) (left right : GeoDataFrame) : list (nat * nat) :=
  match left with
  | [] => []
  | l :: left' =>
      (pair label <$> within_labels (geometry l) right 0) ++ sjoin_from (S label) left' right
  end.

(** [gpd.sjoin(left, right, how="inner", predicate="within")]: one row
    per pair of a left row and a right row with the left geometry within
    the right one; of a joined row only the left label and [index_right]
    are kept. *)
Definition sjoin_within (left right : GeoDataFrame) : list (nat * nat) :=
  sjoin_from 0 left right.

(** [joined.groupby("index_right").size()] *)
Definition groupby_size (joined : list (nat * nat)) : gmap nat nat :=
  foldr (fun '(_, j) counts => <[j := S (default 0%nat (counts !! j))]> counts)
        ∅ joined.

(** [gdf.index.map(counts).fillna(0).astype(int)] *)
Definition index_map_fillna (gdf : GeoDataFrame) (counts : gmap nat nat) : list Z :=
  map (fun label => Z.of_nat (default 0%nat (counts !! label)))
      (seq 0 (length gdf)).

(** ** Library calls as handler steps *)

(** [transform_to_bng(gdf, crs=27700)] of app/routes.py. *)
Definition transform_to_bng (gdf : GeoDataFrame) : M GeoDataFrame :=
  emit EvToCrs;; mret (to_crs 27700 gdf).

(** [gpd.GeoSeries([p], crs="EPSG:4326").to_crs(epsg=27700)], a series
    of one point. *)
Definition point_to_crs (p : geom) : M geom :=
  emit EvToCrs;; mret (crs_transform 27700 p).

Definition distance_to (gdf : GeoDataFrame) (other : geom) : M (list float) :=
  emit EvDistance;; mret (geometry_distance gdf other).

(** [series.buffer(radius).iloc[0]] on a series of one point.  For a NaN
    distance the result is a missing geometry ([None]); a distance that
    is an infinity is refused by GEOS.  (The texts of the library's
    exceptions are abbreviated.) *)
Definition buffer_of (centre : geom) (radius : float) : M (option geom) :=
  emit EvBuffer;;
  if F64.is_nan radius then mret None
  else if F64.is_finite radius then mret (Some (buffer centre radius))
  else raise (GEOSException "buffer distance is not finite").

(** [gdf.geometry.within(other)]; a missing geometry is no operand. *)
Definition within_of (gdf : GeoDataFrame) (other : option geom) : M (list bool) :=
  emit EvWithin;;
  match other with
  | Some other => mret (geometry_within gdf other)
  | None => raise (TypeError "Type not known: GeometryArray vs NoneType")
  end.

Definition sjoin (left right : GeoDataFrame) : M (list (nat * nat)) :=
  emit EvSjoin;; mret (sjoin_within left right).

Definition error_body (msg : string) : value := VDict [("error", VStr msg)].

(** [not (-90 <= latitude <= 90) or not (-180 <= longitude <= 180)] *)
Definition invalid_coordinates (latitude longitude : float) : bool :=
  negb (F64.leb (F64.opp (F64.of_Z 90)) latitude && F64.leb latitude (F64.of_Z 90))
  || negb (F64.leb (F64.opp (F64.of_Z 180)) longitude && F64.leb longitude (F64.of_Z 180)).

(** ** GET /nearest-gp-pharmacy *)

(** The dict [json_response] of the handler (lines 172-198), its entries
    read in source order. *)
Definition json_response_of (nearest_gp nearest_pharmacy_to_gp : Row) : exn + value :=
  name ← getitem nearest_gp "Address_1";
  address1 ← getitem nearest_gp "Address_1";
  address2 ← getitem nearest_gp "Address_2";
  town ← getitem nearest_gp "Town";
  postcode ← getitem nearest_gp "Postcode";
  mondayToFriday ← getitem nearest_gp "opening_ho";
  saturday ← getitem nearest_gp "Saturday";
  sunday ← getitem nearest_gp "Sunday";
  distance_meters ← getitem nearest_gp "distance";
  pharmacyName ← getitem nearest_pharmacy_to_gp "PharmacyName";
  p_address1 ← getitem nearest_pharmacy_to_gp "PharmacyAddress1";
  p_address2 ← getitem nearest_pharmacy_to_gp "PharmacyAddress2";
  p_address3 ← getitem nearest_pharmacy_to_gp "PharmacyAddress3";
  p_postcode ← getitem nearest_pharmacy_to_gp "Postcode";
  distanceInMetres ← getitem nearest_pharmacy_to_gp "distance";
  mret (VDict [
    ("nearest_gp", VDict [
       ("name", name);
       ("address", VDict [
          ("address1", address1); ("address2", address2);
          ("town", town); ("postcode", postcode)]);
       ("opening_hours", VDict [
          ("mondayToFriday", mondayToFriday);
          ("saturday", saturday); ("sunday", sunday)]);
       ("distance_meters", distance_meters)]);
    ("nearest_pharmacy_from_gp", VDict [
       ("pharmacyName", pharmacyName);
       ("address", VDict [
          ("address1", p_address1); ("address2", p_address2);
          ("address3", p_address3); ("postcode", p_postcode)]);
       ("distanceInMetres", distanceInMetres)])]).

Definition nearest_gp_pharmacy (latitude longitude : float) : M response :=
  if invalid_coordinates latitude longitude then
    emit (EvLog WARNING "Invalid latitude or longitude");;
    mret (JSONResponse 400 (error_body "Invalid latitude or longitude."))
  else
    let input_point := Point longitude latitude in
    gp ← gets gp_gdf;
    if empty gp then
      emit (EvLog ERROR "GP GeoJSON data is not available.");;
      mret (JSONResponse 500 (error_body "GP data not available"))
    else
      pharmacy ← gets pharmacy_gdf;
      if empty pharmacy then
        emit (EvLog ERROR "Pharmacy GeoJSON data is not available.");;
        mret (JSONResponse 500 (error_body "Pharmacy data not available"))
      else
        gp_gdf_bng ← gets gp_gdf ≫= transform_to_bng;
        pharmacy_gdf_bng ← gets pharmacy_gdf ≫= transform_to_bng;
        input_point ← point_to_crs input_point;
        gp_distance ← distance_to gp_gdf_bng input_point;
        let gp_gdf_bng := set_column "distance" (VFloat <$> gp_distance) gp_gdf_bng in
        nearest_gp ← lift (idxmin gp_distance ≫= loc gp_gdf_bng);
        xy ← lift (geometry_xy nearest_gp);
        let nearest_gp_point := Point xy.1 xy.2 in
        pharmacy_distance ← distance_to pharmacy_gdf_bng nearest_gp_point;
        let pharmacy_gdf_bng :=
          set_column "distance" (VFloat <$> pharmacy_distance) pharmacy_gdf_bng in
        nearest_pharmacy_to_gp ←
          lift (idxmin pharmacy_distance ≫= loc pharmacy_gdf_bng);
        json_response ← lift (json_response_of nearest_gp nearest_pharmacy_to_gp);
        mret (JSONResponse 200 json_response).

(** ** GET /gp-within-radius *)

(** [1609.34] as a binary64 number: 0x1.9255c28f5c28fp+10. *)
Definition METRES_IN_MILE : float :=
  S754_finite false 7077952172180111 (-42).

(** The body of the loop over [gps_within_radius.iterrows()]. *)
Definition gp_record (row : Row) : exn + value :=
  address1 ← getitem row "Address_1";
  address2 ← getitem row "Address_2";
  town ← getitem row "Town";
  postcode ← getitem row "Postcode";
  openingHours ← getitem row "opening_ho";
  saturday ← getitem row "Saturday";
  sunday ← getitem row "Sunday";
  mret (VDict [
    ("address1", address1); ("address2", address2); ("town", town);
    ("postcode", postcode); ("openingHours", openingHours);
    ("saturday", saturday); ("sunday", sunday)]).

Definition gp_within_radius (latitude longitude radius : float) : M response :=
  if invalid_coordinates latitude longitude then
    emit (EvLog WARNING "Invalid latitude or longitude");;
    mret (JSONResponse 400 (error_body "Invalid latitude or longitude."))
  else if F64.leb radius (F64.of_Z 0) then
    emit (EvLog WARNING "Invalid radius");;
    mret (JSONResponse 400 (error_body "Invalid radius."))
  else
    gp ← gets gp_gdf;
    if empty gp then
      emit (EvLog ERROR "GP GeoJSON data is not available.");;
      mret (JSONResponse 500 (error_body "GP data not available"))
    else
      let centre_point := Point longitude latitude in
      gp_gdf_bng ← gets gp_gdf ≫= transform_to_bng;
      centre_point ← point_to_crs centre_point;
      let radius_metres := F64.mul radius METRES_IN_MILE in
      buffer ← buffer_of centre_point radius_metres;
      mask ← within_of gp_gdf_bng buffer;
      let gps_within_radius := mask_select gp_gdf_bng mask in
      if empty gps_within_radius then
        mret (JSONResponse 404
                (error_body "No GPs found within the specified radius"))
      else
        gp_data ← lift (mapE gp_record gps_within_radius);
        lift (rendered 200 (VDict [("gp_data", VList gp_data)])).

(** ** GET /bins-in-nature-areas *)

Definition set_nature_reserves_gdf (gdf : GeoDataFrame) (w : world) : world :=
  mkWorld _ (gp_gdf w) (pharmacy_gdf w) (bins_gdf w) gdf (conservation_areas_gdf w).

Definition set_conservation_areas_gdf (gdf : GeoDataFrame) (w : world) : world :=
  mkWorld _ (gp_gdf w) (pharmacy_gdf w) (bins_gdf w) (nature_reserves_gdf w) gdf.

Definition nature_reserve_record (row : Row) : exn + value :=
  name ← getitem row "LV_NAME";
  details ← getitem row "LV_DETAILS";
  description ← getitem row "DESCRIPTION";
  binCount ← getitem row "bin_count";
  mret (VDict [
    ("type", VStr "Nature Reserve"); ("name", name); ("details", details);
    ("description", description); ("binCount", binCount)]).

Definition conservation_area_record (row : Row) : exn + value :=
  name ← getitem row "Name";
  binCount ← getitem row "bin_count";
  mret (VDict [
    ("type", VStr "Conservation Area"); ("name", name); ("binCount", binCount)]).

Definition find_bins : M response :=
  bins ← gets bins_gdf;
  if empty bins then
    emit (EvLog ERROR "Dog or Litter Bin GeoJSON data is not available.");;
    mret (JSONResponse 500 (error_body "Dog or Litter Bin data not available"))
  else
    nature ← gets nature_reserves_gdf;
    if empty nature then
      emit (EvLog ERROR "Nature Reserve GeoJSON data is not available.");;
      mret (JSONResponse 500 (error_body "Nature Reserve data not available"))
    else
      conservation ← gets conservation_areas_gdf;
      if empty conservation then
        emit (EvLog ERROR "Conservation Area GeoJSON data is not available.");;
        mret (JSONResponse 500 (error_body "Conservation Area data not available"))
      else
        bins_in_nature_reserves ←
          (l ← gets bins_gdf; r ← gets nature_reserves_gdf; sjoin l r);
        bins_in_conservation_areas ←
          (l ← gets bins_gdf; r ← gets conservation_areas_gdf; sjoin l r);
        let counts := groupby_size bins_in_nature_reserves in
        gdf ← gets nature_reserves_gdf;
        modify (set_nature_reserves_gdf
          (set_column "bin_count" (VInt <$> index_map_fillna gdf counts) gdf));;
        let counts := groupby_size bins_in_conservation_areas in
        gdf ← gets conservation_areas_gdf;
        modify (set_conservation_areas_gdf
          (set_column "bin_count" (VInt <$> index_map_fillna gdf counts) gdf));;
        nature_reserve_bin_count ←
          gets nature_reserves_gdf ≫= (fun gdf => lift (mapE nature_reserve_record gdf));
        conservation_area_bin_count ←
          gets conservation_areas_gdf ≫= (fun gdf => lift (mapE conservation_area_record gdf));
        mret (JSONResponse 200 (VDict [
          ("nature_reserve_bin_count", VList nature_reserve_bin_count);
          ("conservation_area_bin_count", VList conservation_area_bin_count)])).

(** ** GET and POST /upload-geojson/ *)

(** The text of the form, line by line as in the source. *)
Definition upload_form_html : string :=
  let dq := String (Ascii.ascii_of_nat 34) EmptyString in
  let nl := String (Ascii.ascii_of_nat 10) EmptyString in
  String.concat nl [
  EmptyString;
  "    <html>";
  "        <body>";
  "            <h2>Upload a GeoJSON file</h2>";
  "            <form";
  "                action=" ++ dq ++ "/upload-geojson/" ++ dq;
  "                method=" ++ dq ++ "post" ++ dq;
  "                enctype=" ++ dq ++ "multipart/form-data" ++ dq;
  "            >";
  "                <input";
  "                    type=" ++ dq ++ "file" ++ dq;
  "                    name=" ++ dq ++ "file" ++ dq;
  "                    accept=" ++ dq ++ ".geojson" ++ dq ++ " required";
  "                >";
  "                <input";
  "                    type=" ++ dq ++ "submit" ++ dq;
  "                    value=" ++ dq ++ "Upload" ++ dq;
  "                >";
  "            </form>";
  "        </body>";
  "    </html>";
  "    "
  ].

Definition serve_upload_form : M response :=
  mret (HTMLResponse upload_form_html).

(** starlette's [UploadFile]: the declared name and type, and the bytes
    that [await file.read()] returns. *)
Record UploadFile : Type := mkUploadFile {
  filename : string;
  content_type : string;
  file_bytes : list byte
}.

(** [s.endswith(suffix)] *)
Definition endswith (s suffix : string) : bool :=
  let n := String.length s in
  let k := String.length suffix in
  (k <=? n)%nat && String.eqb (String.substring (n - k) k s) suffix.

(** [key in container] for a string [key]: a key of a dict, an element
    of a list, a substring of a string; other values are not iterable. *)
Definition contains (container : value) (key : string) : exn + bool :=
  match container with
  | VDict d => inr (existsb (String.eqb key) d.*1)
  | VList l =>
      inr (existsb (fun v => match v with VStr s => String.eqb key s | _ => false end) l)
  | VStr s => inr (bool_decide (is_Some (String.index 0 key s)))
  | VNone => inl (TypeError "argument of type 'NoneType' is not iterable")
  | VBool _ => inl (TypeError "argument of type 'bool' is not iterable")
  | VInt _ => inl (TypeError "argument of type 'int' is not iterable")
  | VFloat _ => inl (TypeError "argument of type 'float' is not iterable")
  end.

(** [container[key]] for a string [key]. *)
Definition subscript (container : value) (key : string) : exn + value :=
  match container with
  | VDict d =>
      match list_find (fun kv => kv.1 = key) d with
      | Some (_, kv) => inr kv.2
      | None => inl (KeyError key)
      end
  | VList _ => inl (TypeError "list indices must be integers or slices, not str")
  | VStr _ => inl (TypeError "string indices must be integers, not 'str'")
  | VNone => inl (TypeError "'NoneType' object is not subscriptable")
  | VBool _ => inl (TypeError "'bool' object is not subscriptable")
  | VInt _ => inl (TypeError "'int' object is not subscriptable")
  | VFloat _ => inl (TypeError "'float' object is not subscriptable")
  end.

(** [for item in iterable]: the elements of a list, the keys of a dict,
    the characters of a string. *)
Definition iter (iterable : value) : exn + list value :=
  match iterable with
  | VList l => inr l
  | VDict d => inr (VStr <$> d.*1)
  | VStr s => inr ((fun c => VStr (String c EmptyString)) <$> String.list_ascii_of_string s)
  | VNone => inl (TypeError "'NoneType' object is not iterable")
  | VBool _ => inl (TypeError "'bool' object is not iterable")
  | VInt _ => inl (TypeError "'int' object is not iterable")
  | VFloat _ => inl (TypeError "'float' object is not iterable")
  end.

(** [d.keys()] *)
Definition keys (d : value) : exn + list string :=
  match d with
  | VDict d => inr d.*1
  | VNone => inl (AttributeError "'NoneType' object has no attribute 'keys'")
  | VBool _ => inl (AttributeError "'bool' object has no attribute 'keys'")
  | VInt _ => inl (AttributeError "'int' object has no attribute 'keys'")
  | VFloat _ => inl (AttributeError "'float' object has no attribute 'keys'")
  | VStr _ => inl (AttributeError "'str' object has no attribute 'keys'")
  | VList _ => inl (AttributeError "'list' object has no attribute 'keys'")
  end.

(** [d.get(key, fallback)] *)
Definition get (d : value) (key : string) (fallback : value) : exn + value :=
  match d with
  | VDict d =>
      match list_find (fun kv => kv.1 = key) d with
      | Some (_, kv) => inr kv.2
      | None => inr fallback
      end
  | VNone => inl (AttributeError "'NoneType' object has no attribute 'get'")
  | VBool _ => inl (AttributeError "'bool' object has no attribute 'get'")
  | VInt _ => inl (AttributeError "'int' object has no attribute 'get'")
  | VFloat _ => inl (AttributeError "'float' object has no attribute 'get'")
  | VStr _ => inl (AttributeError "'str' object has no attribute 'get'")
  | VList _ => inl (AttributeError "'list' object has no attribute 'get'")
  end.

(** Equality of hashable values.  Python also equates numbers across
    bool, int and float; the geometry type tags of GeoJSON are strings. *)
Definition hashable_eqb (a b : value) : bool :=
  match a, b with
  | VNone, VNone => true
  | VBool x, VBool y => Bool.eqb x y
  | VInt x, VInt y => Z.eqb x y
  | VFloat x, VFloat y => SFeqb x y
  | VStr x, VStr y => String.eqb x y
  | _, _ => false
  end.

(** [set.add(v)]; the set is kept as the list of its elements in the
    order they came in ([list(a_set)] has no specified order). *)
Definition set_add (s : list value) (v : value) : exn + list value :=
  match v with
  | VList _ => inl (TypeError "unhashable type: 'list'")
  | VDict _ => inl (TypeError "unhashable type: 'dict'")
  | _ => inr (if existsb (hashable_eqb v) s then s else (s ++ [v])%list)
  end.

Fixpoint foldE {A B : Type} (f : A -> B -> exn + A) (a : A) (l : list B) : exn + A :=
  match l with
  | [] => inr a
  | x :: l' => match f a x with inl e => inl e | inr a' => foldE f a' l' end
  end.

Definition MAX_UPLOAD_SIZE : Z := 50 * 1024 * 1024.

Definition read (file : UploadFile) : M (list byte) :=
  emit EvFileRead;; mret (file_bytes file).

Definition loads (file_content : list byte) : M value :=
  emit EvJsonLoads;;
  match json_loads file_content with
  | inl e => raise e
  | inr v => mret v
  end.

(** The summary built after validation (lines 426-440). *)
Definition summary_of (geojson_data : value) : exn + value :=
  features ← subscript geojson_data "features" ≫= iter;
  columns ← foldE (fun (columns : gset string) feature =>
               ks ← subscript feature "properties" ≫= keys;
               mret (columns ∪ list_to_set ks)) ∅ features;
  crs ← get geojson_data "crs" (VStr "N/A");
  geometry_types ← foldE (fun types feature =>
               geometry ← subscript feature "geometry";
               tag ← subscript geometry "type";
               set_add types tag) [] features;
  mret (VDict [
    ("rows", VInt (Z.of_nat (length features)));
    ("columns", VList (VStr <$> elements columns));
    ("crs", crs);
    ("geometry_types", VList geometry_types)]).

Definition upload_geojson (file : UploadFile) : M response :=
  try_except
    ((if negb (endswith (filename file) ".geojson") then
        emit (EvLog WARNING "Uploaded file is not of type GeoJSON");;
        raise (ValueError "Uploaded file must be a valid GeoJSON file.")
      else mret tt);;
     file_content ← read file;
     if Z.of_nat (length file_content) >? MAX_UPLOAD_SIZE then
       emit (EvLog WARNING "File too large");;
       mret (JSONResponse 400 (error_body "File is too large."))
     else
       geojson_data ← loads file_content;
       has_features ← lift (contains geojson_data "features");
       (if negb has_features then
          emit (EvLog WARNING "Uploaded GeoJSON file does not contain features");;
          raise (ValueError "Uploaded file is not a valid GeoJSON file.")
        else mret tt);;
       summary ← lift (summary_of geojson_data);
       lift (rendered 200 summary))
    (fun ve =>
       emit (EvLog ERROR ("Unexpected error: " ++ exn_str ve));;
       mret (JSONResponse 400 (error_body (exn_str ve))))
    (fun e =>
       emit (EvLog ERROR ("Unexpected error: " ++ exn_str e));;
       mret (JSONResponse 500 (error_body (exn_str e)))).

(** ** The application *)

(** [read_root] of app/main.py. *)
Definition read_root : M response :=
  mret (JSONResponse 200 (VDict [("message", VStr "Hello, world!")])).

Inductive request : Type :=
  | GET_root
  | GET_nearest_gp_pharmacy (latitude longitude : float)
  | GET_gp_within_radius (latitude longitude radius : float)
  | GET_bins_in_nature_areas
  | GET_upload_geojson
  | POST_upload_geojson (file : UploadFile).

Definition handle (req : request) : M response :=
  match req with
  | GET_root => read_root
  | GET_nearest_gp_pharmacy latitude longitude =>
      nearest_gp_pharmacy latitude longitude
  | GET_gp_within_radius latitude longitude radius =>
      gp_within_radius latitude longitude radius
  | GET_bins_in_nature_areas => find_bins
  | GET_upload_geojson => serve_upload_form
  | POST_upload_geojson file => upload_geojson file
  end.

End Routes.

(** * Facts about binary64 comparison *)

Lemma compare_cont_Eq (m1 m2 : positive) :
  Pos.compare_cont Eq m1 m2 = Pos.compare m1 m2.
Proof. reflexivity. Qed.

Ltac float_cases :=
  repeat match goal with
  | x : float |- _ => destruct x as [[]|[]| |[] ? ?]
  | x : spec_float |- _ => destruct x as [[]|[]| |[] ? ?]
  end;
  unfold F64.ltb, F64.leb, F64.le, F64.lt, SFltb, SFleb, F64.is_nan in *;
  simpl in *; try done;
  rewrite ?compare_cont_Eq in *;
  repeat match goal with
  | H : context [Z.compare ?a ?b] |- _ =>
      destruct (Z.compare_spec a b); simpl in *; try done
  | |- context [Z.compare ?a ?b] =>
      destruct (Z.compare_spec a b); simpl in *; try done
  | H : context [Pos.compare ?a ?b] |- _ =>
      destruct (Pos.compare_spec a b); simpl in *; try done
  | |- context [Pos.compare ?a ?b] =>
      destruct (Pos.compare_spec a b); simpl in *; try done
  end;
  try lia.

Lemma F64_leb_le (x y : float) : F64.leb x y = true <-> F64.le x y.
Proof.
  unfold F64.leb, SFleb, F64.le.
  destruct (SFcompare x y) as [[]|]; intuition congruence.
Qed.

Lemma F64_ltb_lt (x y : float) : F64.ltb x y = true <-> F64.lt x y.
Proof.
  unfold F64.ltb, SFltb, F64.lt.
  destruct (SFcompare x y) as [[]|]; intuition congruence.
Qed.

Lemma F64_ltb_false_leb (x y : float) :
  F64.is_nan x = false -> F64.is_nan y = false ->
  F64.ltb x y = false -> F64.leb y x = true.
Proof. intros. float_cases. Qed.

Lemma F64_ltb_leb_trans (x y z : float) :
  F64.ltb x y = true -> F64.leb y z = true -> F64.ltb x z = true.
Proof. intros. float_cases. Qed.

Lemma F64_leb_trans (x y z : float) :
  F64.leb x y = true -> F64.leb y z = true -> F64.leb x z = true.
Proof. intros. float_cases. Qed.

Lemma F64_ltb_leb (x y : float) : F64.ltb x y = true -> F64.leb x y = true.
Proof. intros. float_cases. Qed.

Lemma F64_leb_refl (x : float) : F64.is_nan x = false -> F64.leb x x = true.
Proof. intros. float_cases. Qed.

Lemma F64_ltb_is_nan (x y : float) :
  F64.ltb x y = true -> F64.is_nan x = false /\ F64.is_nan y = false.
Proof. intros. split; float_cases. Qed.

(** An integer literal is a number. *)
Lemma shr_1_nonneg (mrs : shr_record) : 0 <= shr_m mrs -> 0 <= shr_m (shr_1 mrs).
Proof. destruct mrs as [[|[p|p|]|[p|p|]] r s]; simpl; lia. Qed.

Lemma iter_pos_invariant {A : Type} (P : A -> Prop) (f : A -> A) :
  (forall x, P x -> P (f x)) ->
  forall p x, P x -> P (SpecFloat.iter_pos f p x).
Proof.
  intros Hf p. induction p as [p IH|p IH|]; intros x Hx; simpl; auto.
Qed.

Lemma shr_fexp_nonneg (prec emax m e : Z) (l : location) :
  0 <= m -> 0 <= shr_m (shr_fexp prec emax m e l).1.
Proof.
  intros Hm. unfold shr_fexp, shr.
  assert (0 <= shr_m (shr_record_of_loc m l)) as H0
    by (destruct l as [|[]]; simpl; lia).
  destruct (_ - e); simpl; auto.
  apply (iter_pos_invariant (fun mrs => 0 <= shr_m mrs)); auto using shr_1_nonneg.
Qed.

Lemma round_nearest_even_nonneg (m : Z) (l : location) :
  0 <= m -> 0 <= round_nearest_even m l.
Proof. intros. destruct l as [|[]]; simpl; try lia. destruct (Z.even m); lia. Qed.

Lemma binary_round_aux_not_nan (prec emax : Z) (sx : bool) (mx ex : Z) (lx : location) :
  0 <= mx -> F64.is_nan (binary_round_aux prec emax sx mx ex lx) = false.
Proof.
  intros Hm. unfold binary_round_aux.
  pose proof (shr_fexp_nonneg prec emax mx ex lx Hm) as H1.
  destruct (shr_fexp prec emax mx ex lx) as [mrs' e']. simpl in H1.
  pose proof (shr_fexp_nonneg prec emax _ e' loc_Exact
                (round_nearest_even_nonneg _ (loc_of_shr_record mrs') H1)) as H2.
  destruct (shr_fexp prec emax (round_nearest_even _ _) e' loc_Exact) as [mrs'' e''].
  simpl in H2. destruct (shr_m mrs''); try lia; try done.
  by destruct (_ <=? _)%Z.
Qed.

Lemma F64_of_Z_not_nan (z : Z) : F64.is_nan (F64.of_Z z) = false.
Proof.
  unfold F64.of_Z.
  destruct z; simpl; try done; unfold binary_round;
    destruct (shl_align _ _ _); by apply binary_round_aux_not_nan.
Qed.

(** * A small geometry library and JSON reader to run the handlers on *)

(** Points, axis-parallel rectangles and discs on the integer grid.  A
    point is within a rectangle or a disc when it lies in its interior;
    reprojection to EPSG:27700 scales by 100 (one degree is 100 metres on
    this grid); the distance of two points is the integer part of their
    Euclidean distance. *)
Module Plane.
Inductive shape : Type :=
  | Pt (x y : Z)
  | Rect (x0 y0 x1 y1 : Z)
  | Disc (cx cy r : Z).

Definition to_Z (f : float) : Z :=
  match f with
  | S754_finite s m e =>
      let v := if 0 <=? e then Z.shiftl (Z.pos m) e else Z.shiftr (Z.pos m) (- e) in
      if s then - v else v
  | _ => 0
  end.

Definition point (x y : float) : shape := Pt (to_Z x) (to_Z y).

Definition xy (g : shape) : option (float * float) :=
  match g with
  | Pt x y => Some (F64.of_Z x, F64.of_Z y)
  | _ => None
  end.

Definition transform (epsg : Z) (g : shape) : shape :=
  if epsg =? 27700 then
    match g with
    | Pt x y => Pt (100 * x) (100 * y)
    | Rect x0 y0 x1 y1 => Rect (100 * x0) (100 * y0) (100 * x1) (100 * y1)
    | Disc cx cy r => Disc (100 * cx) (100 * cy) (100 * r)
    end
  else g.

Definition sq (z : Z) : Z := z * z.

Definition dist (a b : shape) : float :=
  match a, b with
  | Pt x y, Pt u v => F64.of_Z (Z.sqrt (sq (x - u) + sq (y - v)))
  | _, _ => F64.of_Z 0
  end.

Definition buf (g : shape) (r : float) : shape :=
  match g with
  | Pt x y => Disc x y (to_Z r)
  | _ => g
  end.

Definition inside (a b : shape) : bool :=
  match a, b with
  | Pt x y, Rect x0 y0 x1 y1 => (x0 <? x) && (x <? x1) && (y0 <? y) && (y <? y1)
  | Pt x y, Disc cx cy r => sq (x - cx) + sq (y - cy) <? sq r
  | _, _ => false
  end.

Lemma dist_not_nan (a b : shape) : F64.is_nan (dist a b) = false.
Proof. destruct a, b; apply F64_of_Z_not_nan. Qed.
End Plane.

#[local] Instance plane_geo : GeoLib := {|
  geom := Plane.shape;
  Point := Plane.point;
  geom_xy := Plane.xy;
  crs_transform := Plane.transform;
  distance := Plane.dist;
  buffer := Plane.buf;
  within := Plane.inside;
  distance_not_nan := Plane.dist_not_nan
|}.

(** [json.loads] on a handful of documents; JSON allows white space after
    the value, so a document is recognised with any padding of spaces and
    line ends behind it.  Every other input is answered as unparsable. *)
Module Documents.
Definition dq : string := String (Ascii.ascii_of_nat 34) EmptyString.

Definition is_ws (b : byte) : bool :=
  Byte.eqb b " "%byte || Byte.eqb b x0a%byte || Byte.eqb b x0d%byte || Byte.eqb b x09%byte.

Fixpoint is_padded (doc content : list byte) : bool :=
  match doc, content with
  | [], rest => forallb is_ws rest
  | d :: doc', c :: content' => Byte.eqb d c && is_padded doc' content'
  | _ :: _, [] => false
  end.

Definition empty_collection : string :=
  "{" ++ dq ++ "features" ++ dq ++ ": []}".

Definition table : list (string * (exn + value)) := [
  ("null", inr VNone);
  ("123", inr (VInt 123));
  ("{}", inr (VDict []));
  ("[1, 2]", inr (VList [VInt 1; VInt 2]));
  (empty_collection, inr (VDict [("features", VList [])]));
  ("Invalid GeoJSON content",
   inl (ValueError "Expecting value: line 1 column 1 (char 0)"))
].

Fixpoint find_document (docs : list (string * (exn + value)))
    (content : list byte) : exn + value :=
  match docs with
  | [] => inl (ValueError "Expecting value")
  | (doc, answer) :: docs' =>
      if is_padded (String.list_byte_of_string doc) content then answer
      else find_document docs' content
  end.

Definition loads (content : list byte) : exn + value :=
  find_document table content.
End Documents.

#[local] Instance documents_json : JsonLib := {|
  json_loads := Documents.loads
|}.

(** A town on the grid: two surgeries, two pharmacies, three bins, three
    nature reserves of which the first two overlap, one conservation area. *)
Module Town.
Definition row (g : Plane.shape) (cells : list (string * value)) : Row :=
  mkRow _ g (list_to_map cells).

Definition surgery (g : Plane.shape) (name street postcode saturday : string) : Row :=
  row g [("Address_1", VStr name); ("Address_2", VStr street); ("Town", VStr "York");
         ("Postcode", VStr postcode); ("opening_ho", VStr "8:30am - 6pm");
         ("Saturday", VStr saturday); ("Sunday", VStr "Closed")].

Definition chemist (g : Plane.shape) (name street postcode : string) : Row :=
  row g [("PharmacyName", VStr name); ("PharmacyAddress1", VStr street);
         ("PharmacyAddress2", VStr EmptyString); ("PharmacyAddress3", VStr EmptyString);
         ("Postcode", VStr postcode)].

Definition reserve (g : Plane.shape) (name : string) : Row :=
  row g [("LV_NAME", VStr name); ("LV_DETAILS", VStr "Local Nature Reserve");
         ("DESCRIPTION", VNone)].

Definition gps : GeoDataFrame := [
  surgery (Plane.Pt 30 0) "Park View Surgery" "28 Millfield Ave, Hull Road" "YO10 3AB" "Closed";
  surgery (Plane.Pt 60 0) "Unity Health" "18 Wenlock Terrace" "YO10 4DU" "9am - 1pm"
].

Definition pharmacies : GeoDataFrame := [
  chemist (Plane.Pt (-1) 0) "Monkbar Pharmacy" "3 Goodramgate" "YO1 7LJ";
  chemist (Plane.Pt 32 0) "Whitworth Chemists Ltd" "275 Melrosegate" "YO10 3SN"
].

Definition bins : GeoDataFrame := [
  row (Plane.Pt 3 3) [("TYPE", VStr "Litter")];
  row (Plane.Pt 1 1) [("TYPE", VStr "Dog")];
  row (Plane.Pt 100 100) [("TYPE", VStr "Litter")]
].

Definition reserves : GeoDataFrame := [
  reserve (Plane.Rect 0 0 4 4) "St Nicholas Fields";
  reserve (Plane.Rect 2 2 6 6) "Hob Moor";
  reserve (Plane.Rect 50 50 60 60) "Acomb Wood"
].

Definition areas : GeoDataFrame := [
  row (Plane.Rect 0 0 10 10) [("Name", VStr "Heslington")]
].

Definition loaded : world := mkWorld _ gps pharmacies bins reserves areas.

(** The same town before any surgery was recorded. *)
Definition no_surgeries : world := mkWorld _ [] pharmacies bins reserves areas.
End Town.

(** * Properties of the handlers *)

Ltac run_handler :=
  unfold run, mbind, M_bind, mret, M_ret, emit, gets, lift, raise, modify,
         transform_to_bng, point_to_crs, distance_to, buffer_of, within_of, sjoin;
  simpl.

(** ** Input validation (C7) *)

Lemma invalid_coordinates_spec (latitude longitude : float) :
  invalid_coordinates latitude longitude = true <->
  ~ F64.in_range (F64.opp (F64.of_Z 90)) (F64.of_Z 90) latitude \/
  ~ F64.in_range (F64.opp (F64.of_Z 180)) (F64.of_Z 180) longitude.
Proof.
  unfold invalid_coordinates, F64.in_range.
  rewrite <- !F64_leb_le.
  destruct (F64.leb _ latitude), (F64.leb latitude _),
           (F64.leb _ longitude), (F64.leb longitude _); simpl;
    intuition congruence.
Qed.

Definition no_geometry_call (log : list event) : Prop :=
  Forall (fun ev => is_geometry_call ev = false) log.

(** C7: a request to /nearest-gp-pharmacy or /gp-within-radius whose
    latitude is outside [-90, 90] or whose longitude is outside [-180, 180]
    is answered 400 "Invalid latitude or longitude."; a radius request
    with valid coordinates and a radius <= 0 is answered 400
    "Invalid radius."; in both cases the globals are untouched and the
    handler has logged one warning and called nothing of the geometry
    library (no reprojection, no distance, no buffer). *)
Theorem invalid_request_rejected_before_geometry `{GeoLib}
    (w : world) (latitude longitude radius : float) :
  (~ F64.in_range (F64.opp (F64.of_Z 90)) (F64.of_Z 90) latitude \/
   ~ F64.in_range (F64.opp (F64.of_Z 180)) (F64.of_Z 180) longitude ->
   run (nearest_gp_pharmacy latitude longitude) w =
     (inr (JSONResponse 400 (error_body "Invalid latitude or longitude.")), w,
      [EvLog WARNING "Invalid latitude or longitude"]) /\
   run (gp_within_radius latitude longitude radius) w =
     (inr (JSONResponse 400 (error_body "Invalid latitude or longitude.")), w,
      [EvLog WARNING "Invalid latitude or longitude"]) /\
   no_geometry_call (run (nearest_gp_pharmacy latitude longitude) w).2 /\
   no_geometry_call (run (gp_within_radius latitude longitude radius) w).2) /\
  (F64.in_range (F64.opp (F64.of_Z 90)) (F64.of_Z 90) latitude ->
   F64.in_range (F64.opp (F64.of_Z 180)) (F64.of_Z 180) longitude ->
   F64.le radius (F64.of_Z 0) ->
   run (gp_within_radius latitude longitude radius) w =
     (inr (JSONResponse 400 (error_body "Invalid radius.")), w,
      [EvLog WARNING "Invalid radius"]) /\
   no_geometry_call (run (gp_within_radius latitude longitude radius) w).2).
Proof.
  split.
  - intros Hbad. apply invalid_coordinates_spec in Hbad.
    assert (run (nearest_gp_pharmacy latitude longitude) w =
      (inr (JSONResponse 400 (error_body "Invalid latitude or longitude.")), w,
       [EvLog WARNING "Invalid latitude or longitude"])) as E1
      by (unfold nearest_gp_pharmacy; rewrite Hbad; reflexivity).
    assert (run (gp_within_radius latitude longitude radius) w =
      (inr (JSONResponse 400 (error_body "Invalid latitude or longitude.")), w,
       [EvLog WARNING "Invalid latitude or longitude"])) as E2
      by (unfold gp_within_radius; rewrite Hbad; reflexivity).
    rewrite E1, E2. repeat split; repeat constructor.
  - intros Hlat Hlon Hradius.
    assert (invalid_coordinates latitude longitude = false) as Hok.
    { apply not_true_iff_false. rewrite invalid_coordinates_spec. tauto. }
    apply F64_leb_le in Hradius.
    assert (run (gp_within_radius latitude longitude radius) w =
      (inr (JSONResponse 400 (error_body "Invalid radius.")), w,
       [EvLog WARNING "Invalid radius"])) as E
      by (unfold gp_within_radius; rewrite Hok, Hradius; reflexivity).
    rewrite E. repeat split; repeat constructor.
Qed.

(** The requests of the repository's tests: latitude=1000&longitude=1000,
    and radius=-5 at valid coordinates. *)
Lemma invalid_request_rejected_before_geometry_witness :
  run (nearest_gp_pharmacy (F64.of_Z 1000) (F64.of_Z 1000)) Town.loaded =
    (inr (JSONResponse 400 (error_body "Invalid latitude or longitude.")), Town.loaded,
     [EvLog WARNING "Invalid latitude or longitude"]) /\
  run (gp_within_radius (F64.of_Z 53) (F64.opp (F64.of_Z 1)) (F64.opp (F64.of_Z 5)))
      Town.loaded =
    (inr (JSONResponse 400 (error_body "Invalid radius.")), Town.loaded,
     [EvLog WARNING "Invalid radius"]).
Proof.
  split.
  - apply (invalid_request_rejected_before_geometry
             Town.loaded (F64.of_Z 1000) (F64.of_Z 1000) (F64.of_Z 1)).
    left. intros [_ [Hle|Hle]]; vm_compute in Hle; discriminate.
  - apply (invalid_request_rejected_before_geometry
             Town.loaded (F64.of_Z 53) (F64.opp (F64.of_Z 1)) (F64.opp (F64.of_Z 5))).
    + split; left; vm_compute; reflexivity.
    + split; left; vm_compute; reflexivity.
    + left; vm_compute; reflexivity.
Defined.

(** ** The radius filter (C8, C9) *)

(** The constant is the binary64 number nearest to 1609.34: a 53-bit
    mantissa m with |m * 2^-42 - 160934/100| at most half a unit in the
    last place. *)
Lemma METRES_IN_MILE_is_1609_34 :
  exists m : positive,
    METRES_IN_MILE = S754_finite false m (-42) /\
    Z.log2 (Z.pos m) = 52 /\
    2 * Z.abs (100 * Z.pos m - 160934 * 2 ^ 42) <= 100.
Proof. eexists. split; [reflexivity|]. split; [reflexivity|]. vm_compute. discriminate. Qed.

Lemma mask_select_filter `{GeoLib} (gdf : GeoDataFrame) (area : geom) :
  mask_select gdf (geometry_within gdf area) =
  filter (fun row => within (geometry row) area = true) gdf.
Proof.
  induction gdf as [|row gdf IH]; [reflexivity|]. simpl.
  rewrite filter_cons, IH.
  destruct (within (geometry row) area); by case_decide.
Qed.

Lemma empty_false `{GeoLib} (gdf : GeoDataFrame) : gdf <> [] -> empty gdf = false.
Proof. by destruct gdf. Qed.

(** The rows the radius search has to report: those of the reprojected GP
    frame whose geometry is within the buffer of [radius] miles around
    the reprojected centre. *)
Definition within_radius `{GeoLib} (w : world) (latitude longitude radius : float) :
    GeoDataFrame :=
  filter (fun row =>
            within (geometry row)
                   (buffer (crs_transform 27700 (Point longitude latitude))
                           (F64.mul radius METRES_IN_MILE)) = true)
         (to_crs 27700 (gp_gdf w)).

Definition valid_radius_request (latitude longitude radius : float) : Prop :=
  F64.in_range (F64.opp (F64.of_Z 90)) (F64.of_Z 90) latitude /\
  F64.in_range (F64.opp (F64.of_Z 180)) (F64.of_Z 180) longitude /\
  ~ F64.le radius (F64.of_Z 0).

(** The radius in metres is a number: neither NaN nor an infinity. *)
Definition finite_in_metres (radius : float) : Prop :=
  F64.is_finite (F64.mul radius METRES_IN_MILE) = true.

Lemma F64_is_finite_not_nan (x : float) : F64.is_finite x = true -> F64.is_nan x = false.
Proof. by destruct x. Qed.

(** What building the response of [status_code] and [content] comes to:
    the response, or a [ValueError] when the content is not JSON
    compliant (its message names the offending number in some versions of
    the library). *)
Definition renders (status_code : Z) (content : value) (outcome : exn + response) : Prop :=
  if json_compliant content then outcome = inr (JSONResponse status_code content)
  else exists msg, outcome = inl (ValueError msg).

Lemma rendered_renders (status_code : Z) (content : value) :
  renders status_code content (rendered status_code content).
Proof.
  unfold renders, rendered. destruct (json_compliant content); [done|by eexists].
Qed.

Lemma gp_within_radius_run `{GeoLib} (w : world) (latitude longitude radius : float) :
  valid_radius_request latitude longitude radius ->
  finite_in_metres radius ->
  gp_gdf w <> [] ->
  run (gp_within_radius latitude longitude radius) w =
    (match within_radius w latitude longitude radius with
     | [] => inr (JSONResponse 404
                    (error_body "No GPs found within the specified radius"))
     | _ :: _ =>
         match mapE gp_record (within_radius w latitude longitude radius) with
         | inl e => inl e
         | inr gp_data => rendered 200 (VDict [("gp_data", VList gp_data)])
         end
     end, w, [EvToCrs; EvToCrs; EvBuffer; EvWithin]).
Proof.
  intros (Hlat & Hlon & Hradius) Hfinite Hgp.
  assert (invalid_coordinates latitude longitude = false) as Hok.
  { apply not_true_iff_false. rewrite invalid_coordinates_spec. tauto. }
  assert (F64.leb radius (F64.of_Z 0) = false) as Hpos.
  { apply not_true_iff_false. by rewrite F64_leb_le. }
  unfold gp_within_radius, within_radius. rewrite Hok, Hpos.
  run_handler. rewrite (empty_false _ Hgp). simpl.
  rewrite (F64_is_finite_not_nan _ Hfinite), Hfinite. simpl.
  rewrite mask_select_filter.
  destruct (filter _ _) as [|row selected]; [reflexivity|].
  simpl. destruct (gp_record row); [reflexivity|].
  by destruct (mapE gp_record selected).
Qed.

(** The handler on a radius that passes the guard but is no number in
    metres: a NaN radius gives NaN metres, a missing buffer and a
    [TypeError] at the within test; metres that overflow to an infinity
    are refused by the buffer. *)
Lemma gp_within_radius_not_finite `{GeoLib} (w : world) (latitude longitude radius : float) :
  valid_radius_request latitude longitude radius ->
  gp_gdf w <> [] ->
  F64.is_finite (F64.mul radius METRES_IN_MILE) = false ->
  run (gp_within_radius latitude longitude radius) w =
    if F64.is_nan (F64.mul radius METRES_IN_MILE) then
      (inl (TypeError "Type not known: GeometryArray vs NoneType"), w,
       [EvToCrs; EvToCrs; EvBuffer; EvWithin])
    else
      (inl (GEOSException "buffer distance is not finite"), w,
       [EvToCrs; EvToCrs; EvBuffer]).
Proof.
  intros (Hlat & Hlon & Hradius) Hgp Hfinite.
  assert (invalid_coordinates latitude longitude = false) as Hok.
  { apply not_true_iff_false. rewrite invalid_coordinates_spec. tauto. }
  assert (F64.leb radius (F64.of_Z 0) = false) as Hpos.
  { apply not_true_iff_false. by rewrite F64_leb_le. }
  unfold gp_within_radius. rewrite Hok, Hpos.
  run_handler. rewrite (empty_false _ Hgp). simpl.
  destruct (F64.is_nan (F64.mul radius METRES_IN_MILE)); [reflexivity|].
  by rewrite Hfinite.
Qed.

(** The radius 1e308 miles, the binary64 number nearest to 10^308. *)
Definition radius_1e308 : float := F64.of_Z (10 ^ 308).

(** C8 as stated fails for a radius that is valid (positive, and a
    finite number of miles) but too large in metres: 1e308 * 1609.34
    overflows to an infinity, the buffer raises, and the handler ends
    without a response. *)
Lemma radius_of_1e308_miles_raises :
  valid_radius_request (F64.of_Z 0) (F64.of_Z 0) radius_1e308 /\
  F64.is_finite radius_1e308 = true /\
  F64.mul radius_1e308 METRES_IN_MILE = F64.inf /\
  exists msg,
    run (gp_within_radius (F64.of_Z 0) (F64.of_Z 0) radius_1e308) Town.loaded =
      (inl (GEOSException msg), Town.loaded, [EvToCrs; EvToCrs; EvBuffer]).
Proof.
  assert (valid_radius_request (F64.of_Z 0) (F64.of_Z 0) radius_1e308) as Hvalid.
  { repeat split; try (left; vm_compute; reflexivity).
    intros [Hle|Hle]; vm_compute in Hle; discriminate. }
  split; [exact Hvalid|]. split; [by vm_compute|]. split; [by vm_compute|].
  eexists. rewrite (gp_within_radius_not_finite Town.loaded _ _ _ Hvalid);
    [|discriminate|by vm_compute].
  assert (F64.is_nan (F64.mul radius_1e308 METRES_IN_MILE) = false) as -> by by vm_compute.
  reflexivity.
Qed.

(** C8, amended: for a valid radius request whose radius is a finite
    number of metres, on a nonempty GP frame, the handler multiplies the
    radius by 1609.34, buffers the reprojected centre by that many
    metres, and reports exactly the rows of the reprojected frame whose
    geometry is within the buffer, in frame order: 404 when there is
    none, else one record per such row, rendered as the 200 response.
    The rows kept are a subsequence of the frame, and a row is kept iff
    it is in the frame and within the buffer. *)
Theorem gp_within_radius_selects_within `{GeoLib}
    (w : world) (latitude longitude radius : float) :
  valid_radius_request latitude longitude radius ->
  finite_in_metres radius ->
  gp_gdf w <> [] ->
  let centre := crs_transform 27700 (Point longitude latitude) in
  let area := buffer centre (F64.mul radius METRES_IN_MILE) in
  let frame := to_crs 27700 (gp_gdf w) in
  let selected := filter (fun row => within (geometry row) area = true) frame in
  (exists outcome,
     run (gp_within_radius latitude longitude radius) w =
       (outcome, w, [EvToCrs; EvToCrs; EvBuffer; EvWithin]) /\
     match selected with
     | [] => outcome = inr (JSONResponse 404
                              (error_body "No GPs found within the specified radius"))
     | _ =>
         match mapE gp_record selected with
         | inl e => outcome = inl e
         | inr gp_data => renders 200 (VDict [("gp_data", VList gp_data)]) outcome
         end
     end) /\
  selected `sublist_of` frame /\
  (forall row, row ∈ selected <-> within (geometry row) area = true /\ row ∈ frame).
Proof.
  intros Hvalid Hfinite Hgp centre area frame selected. split; [|split].
  - rewrite (gp_within_radius_run w latitude longitude radius Hvalid Hfinite Hgp).
    eexists. split; [reflexivity|]. fold centre area frame selected.
    change (within_radius w latitude longitude radius) with selected.
    destruct selected as [|row rows]; [done|].
    destruct (mapE gp_record (row :: rows)); [done|]. apply rendered_renders.
  - apply sublist_filter.
  - intros row.
    apply (list_elem_of_filter (fun row => within (geometry row) area = true)).
Qed.

Lemma valid_radius_two_miles :
  valid_radius_request (F64.of_Z 0) (F64.of_Z 0) (F64.of_Z 2).
Proof.
  repeat split; try (left; vm_compute; reflexivity).
  intros [Hle|Hle]; vm_compute in Hle; discriminate.
Qed.

(** Two miles around the origin of the town: the first surgery, 3000
    metres away, is reported; the second, 6000 metres away, is not. *)
Lemma gp_within_radius_selects_within_witness :
  run (gp_within_radius (F64.of_Z 0) (F64.of_Z 0) (F64.of_Z 2)) Town.loaded =
    (inr (JSONResponse 200 (VDict [("gp_data", VList [
       VDict [("address1", VStr "Park View Surgery");
              ("address2", VStr "28 Millfield Ave, Hull Road");
              ("town", VStr "York"); ("postcode", VStr "YO10 3AB");
              ("openingHours", VStr "8:30am - 6pm");
              ("saturday", VStr "Closed"); ("sunday", VStr "Closed")]])])),
     Town.loaded, [EvToCrs; EvToCrs; EvBuffer; EvWithin]).
Proof.
  assert (finite_in_metres (F64.of_Z 2)) as Hfinite by (vm_compute; reflexivity).
  assert (gp_gdf Town.loaded <> []) as Hgp by discriminate.
  destruct (gp_within_radius_selects_within Town.loaded _ _ _
              valid_radius_two_miles Hfinite Hgp) as [(outcome & E & Hout) _].
  rewrite E. vm_compute in Hout. rewrite Hout. reflexivity.
Defined.

(** C9 as stated fails on an empty GP frame: the request is valid and no
    row is within the buffer, yet the guard on the frame answers 500. *)
Lemma radius_search_on_empty_frame_is_500 :
  valid_radius_request (F64.of_Z 0) (F64.of_Z 0) (F64.of_Z 1) /\
  within_radius Town.no_surgeries (F64.of_Z 0) (F64.of_Z 0) (F64.of_Z 1) = [] /\
  run (gp_within_radius (F64.of_Z 0) (F64.of_Z 0) (F64.of_Z 1)) Town.no_surgeries =
    (inr (JSONResponse 500 (error_body "GP data not available")),
     Town.no_surgeries, [EvLog ERROR "GP GeoJSON data is not available."]).
Proof.
  split; [|split].
  - repeat split; try (left; vm_compute; reflexivity).
    intros [Hle|Hle]; vm_compute in Hle; discriminate.
  - reflexivity.
  - reflexivity.
Qed.

(** C9, amended: for a valid radius request whose radius is a finite
    number of metres, on a nonempty GP frame with no row within the
    buffer, the answer is 404 "No GPs found within the specified radius"
    (a status below the 500 class), after the two reprojections, the
    buffer and the within test, with the globals untouched. *)
Theorem no_gp_within_radius_is_404 `{GeoLib}
    (w : world) (latitude longitude radius : float) :
  valid_radius_request latitude longitude radius ->
  finite_in_metres radius ->
  gp_gdf w <> [] ->
  within_radius w latitude longitude radius = [] ->
  run (gp_within_radius latitude longitude radius) w =
    (inr (JSONResponse 404 (error_body "No GPs found within the specified radius")),
     w, [EvToCrs; EvToCrs; EvBuffer; EvWithin]) /\
  status_of (JSONResponse 404
               (error_body "No GPs found within the specified radius")) < 500.
Proof.
  intros Hvalid Hfinite Hgp Hnone.
  rewrite (gp_within_radius_run w latitude longitude radius Hvalid Hfinite Hgp), Hnone.
  split; [reflexivity|]. simpl. lia.
Qed.

(** One mile around the origin of the town reaches no surgery. *)
Lemma no_gp_within_radius_is_404_witness :
  run (gp_within_radius (F64.of_Z 0) (F64.of_Z 0) (F64.of_Z 1)) Town.loaded =
    (inr (JSONResponse 404 (error_body "No GPs found within the specified radius")),
     Town.loaded, [EvToCrs; EvToCrs; EvBuffer; EvWithin]).
Proof.
  apply (no_gp_within_radius_is_404 Town.loaded (F64.of_Z 0) (F64.of_Z 0) (F64.of_Z 1)).
  - repeat split; try (left; vm_compute; reflexivity).
    intros [Hle|Hle]; vm_compute in Hle; discriminate.
  - vm_compute. reflexivity.
  - discriminate.
  - reflexivity.
Defined.

(** ** Nearest facility (C5) and the two-hop search (C4) *)

Lemma F64_ltb_irrefl (x : float) : F64.ltb x x = false.
Proof. float_cases. Qed.

Lemma F64_ltb_asym (x y : float) : F64.ltb x y = true -> F64.ltb y x = false.
Proof. intros. float_cases. Qed.

Lemma F64_ltb_trans (x y z : float) :
  F64.ltb x y = true -> F64.ltb y z = true -> F64.ltb x z = true.
Proof. intros. float_cases. Qed.

(** What the scan of [argmin_from] returns: the incumbent when no value
    is below it, otherwise the first position of the least value. *)
Lemma argmin_from_spec (values : list float) :
  Forall (fun x => F64.is_nan x = false) values ->
  forall (best : nat) (best_value : float) (i : nat),
  F64.is_nan best_value = false ->
  (argmin_from best best_value i values = best /\
   forall k x, values !! k = Some x -> F64.ltb x best_value = false) \/
  (exists k v,
     argmin_from best best_value i values = (i + k)%nat /\
     values !! k = Some v /\
     F64.ltb v best_value = true /\
     (forall k' x, values !! k' = Some x -> F64.ltb x v = false) /\
     (forall k' x, (k' < k)%nat -> values !! k' = Some x -> F64.ltb v x = true)).
Proof.
  induction 1 as [|x values Hx Hvalues IH]; intros best best_value i Hbest.
  { left. split; [reflexivity|]. intros k x Hk. by rewrite lookup_nil in Hk. }
  simpl. destruct (F64.ltb x best_value) eqn:Hlt.
  - right. destruct (IH i x (S i) Hx) as [[Hr Hmin]|(k & v & Hr & Hk & Hv & Hmin & Hfirst)].
    + exists 0%nat, x. rewrite Hr. repeat split; [lia|done|..].
      * intros [|k'] y Hy; simpl in Hy; [|by eauto].
        injection Hy as <-. apply F64_ltb_irrefl.
      * intros k' y Hk'. lia.
    + exists (S k), v. rewrite Hr. repeat split; [lia|done|..].
      * by apply (F64_ltb_trans v x best_value).
      * intros [|k'] y Hy; simpl in Hy; [|by eauto].
        injection Hy as <-. by apply F64_ltb_asym.
      * intros [|k'] y Hk' Hy; simpl in Hy.
        -- by injection Hy as <-.
        -- apply (Hfirst k'); [lia|done].
  - destruct (IH best best_value (S i) Hbest)
      as [[Hr Hmin]|(k & v & Hr & Hk & Hv & Hmin & Hfirst)].
    + left. split; [done|]. intros [|k'] y Hy; simpl in Hy; [|by eauto].
      by injection Hy as <-.
    + right. exists (S k), v. rewrite Hr. repeat split; [lia|done|done|..].
      * intros [|k'] y Hy; simpl in Hy; [|by eauto].
        injection Hy as <-.
        destruct (F64.ltb x v) eqn:Hxv; [|done].
        by rewrite (F64_ltb_trans x v best_value Hxv Hv) in Hlt.
      * intros [|k'] y Hk' Hy; simpl in Hy.
        -- injection Hy as <-.
           apply (F64_ltb_leb_trans v best_value x Hv).
           by apply F64_ltb_false_leb.
        -- apply (Hfirst k'); [lia|done].
Qed.

Lemma nan_to_inf_id (values : list float) :
  Forall (fun x => F64.is_nan x = false) values -> nan_to_inf <$> values = values.
Proof.
  induction 1 as [|x values Hx _ IH]; [reflexivity|].
  rewrite fmap_cons, IH. unfold nan_to_inf. by rewrite Hx.
Qed.

(** [idxmin] on a nonempty series of numbers: the label of a least value,
    every earlier value being strictly greater. *)
Lemma idxmin_spec (series : list float) :
  Forall (fun x => F64.is_nan x = false) series ->
  series <> [] ->
  exists i v,
    idxmin series = inr i /\ series !! i = Some v /\
    (forall j x, series !! j = Some x -> F64.leb v x = true) /\
    (forall j x, (j < i)%nat -> series !! j = Some x -> F64.ltb v x = true).
Proof.
  intros Hnum Hne. destruct series as [|x values]; [done|].
  unfold idxmin. rewrite (nan_to_inf_id _ Hnum).
  inversion Hnum as [|? ? Hx Hvalues]; subst.
  simpl. rewrite Hx. simpl.
  destruct (argmin_from_spec values Hvalues 0%nat x 1%nat Hx)
    as [[Hr Hmin]|(k & v & Hr & Hk & Hv & Hmin & Hfirst)].
  - exists 0%nat, x. rewrite Hr. repeat split.
    + intros [|j] y Hy; simpl in Hy.
      * injection Hy as <-. by apply F64_leb_refl.
      * apply F64_ltb_false_leb; [|done|by eauto].
        exact (Forall_lookup_1 (fun x => F64.is_nan x = false) values j y Hvalues Hy).
    + intros j y Hj. lia.
  - exists (S k), v. rewrite Hr. repeat split; [done|..].
    + intros [|j] y Hy; simpl in Hy.
      * injection Hy as <-. by apply F64_ltb_leb.
      * apply F64_ltb_false_leb; [|by apply (F64_ltb_is_nan v x)|by eauto].
        exact (Forall_lookup_1 (fun x => F64.is_nan x = false) values j y Hvalues Hy).
    + intros [|j] y Hj Hy; simpl in Hy.
      * by injection Hy as <-.
      * apply (Hfirst j); [lia|done].
Qed.

(** The nearest-facility resolution of the handler (lines 153-156, and
    again 164-169): the distance column is assigned and the row at
    [idxmin] of that column is taken. *)
Definition nearest_facility `{GeoLib} (gdf : GeoDataFrame) (pt : geom) : exn + Row :=
  idxmin (geometry_distance gdf pt)
    ≫= loc (set_column "distance" (VFloat <$> geometry_distance gdf pt) gdf).

(** A row with its distance to [pt] in the column "distance". *)
Definition with_distance `{GeoLib} (row : Row) (pt : geom) : Row :=
  mkRow _ (geometry row)
        (<["distance" := VFloat (distance (geometry row) pt)]> (props row)).

(** Row [i] of the frame is nearest to [pt]: no row is closer, and every
    row before it is strictly farther. *)
Definition first_nearest `{GeoLib} (gdf : GeoDataFrame) (pt : geom)
    (i : nat) (row : Row) : Prop :=
  gdf !! i = Some row /\
  (forall j other, gdf !! j = Some other ->
     F64.le (distance (geometry row) pt) (distance (geometry other) pt)) /\
  (forall j other, (j < i)%nat -> gdf !! j = Some other ->
     F64.lt (distance (geometry row) pt) (distance (geometry other) pt)).

Lemma set_column_distance_lookup `{GeoLib} (gdf : GeoDataFrame) (pt : geom)
    (i : nat) (row : Row) :
  gdf !! i = Some row ->
  set_column "distance" (VFloat <$> geometry_distance gdf pt) gdf !! i =
    Some (with_distance row pt).
Proof.
  intros Hrow. unfold set_column, geometry_distance.
  rewrite lookup_zip_with, Hrow. simpl.
  by rewrite !list_lookup_fmap, Hrow.
Qed.

Lemma nearest_facility_spec `{GeoLib} (gdf : GeoDataFrame) (pt : geom) :
  gdf <> [] ->
  exists i row,
    first_nearest gdf pt i row /\
    nearest_facility gdf pt = inr (with_distance row pt).
Proof.
  intros Hne.
  destruct (idxmin_spec (geometry_distance gdf pt)) as (i & v & Hi & Hv & Hmin & Hfirst).
  { unfold geometry_distance. apply Forall_fmap, Forall_forall.
    intros row _. apply distance_not_nan. }
  { by destruct gdf. }
  unfold geometry_distance in Hv. rewrite list_lookup_fmap in Hv.
  destruct (gdf !! i) as [row|] eqn:Hrow; [|done]. injection Hv as <-.
  exists i, row. split; [split; [done|split]|].
  - intros j other Hother. apply F64_leb_le, (Hmin j).
    unfold geometry_distance. by rewrite list_lookup_fmap, Hother.
  - intros j other Hj Hother. apply F64_ltb_lt, (Hfirst j); [done|].
    unfold geometry_distance. by rewrite list_lookup_fmap, Hother.
  - unfold nearest_facility. rewrite Hi. simpl. unfold loc.
    by rewrite (set_column_distance_lookup gdf pt i row Hrow).
Qed.

(** C5: on a nonempty (reprojected) frame and a (reprojected) query point
    the nearest-facility resolution returns a row of the frame, with its
    distance attached, whose distance to the point is least among all
    rows; among several rows at that least distance it is the first in
    frame order. *)
Theorem nearest_facility_first_minimum `{GeoLib} (gdf : GeoDataFrame) (pt : geom) :
  gdf <> [] ->
  exists i row,
    gdf !! i = Some row /\
    nearest_facility gdf pt = inr (with_distance row pt) /\
    (forall j other, gdf !! j = Some other ->
       F64.le (distance (geometry row) pt) (distance (geometry other) pt)) /\
    (forall j other, (j < i)%nat -> gdf !! j = Some other ->
       F64.lt (distance (geometry row) pt) (distance (geometry other) pt)).
Proof.
  intros Hne.
  destruct (nearest_facility_spec gdf pt Hne) as (i & row & (Hrow & Hmin & Hfirst) & Hres).
  by exists i, row.
Qed.

(** The pharmacies of the town seen from x = 1550: the two of them are
    1650 away, and the first one is the answer. *)
Lemma nearest_facility_first_minimum_witness :
  exists i row,
    to_crs 27700 Town.pharmacies !! i = Some row /\
    nearest_facility (to_crs 27700 Town.pharmacies) (Plane.Pt 1550 0) =
      inr (with_distance row (Plane.Pt 1550 0)) /\
    (forall j other, to_crs 27700 Town.pharmacies !! j = Some other ->
       F64.le (distance (geometry row) (Plane.Pt 1550 0))
              (distance (geometry other) (Plane.Pt 1550 0))) /\
    (forall j other, (j < i)%nat -> to_crs 27700 Town.pharmacies !! j = Some other ->
       F64.lt (distance (geometry row) (Plane.Pt 1550 0))
              (distance (geometry other) (Plane.Pt 1550 0))).
Proof.
  apply (nearest_facility_first_minimum (to_crs 27700 Town.pharmacies) (Plane.Pt 1550 0)).
  discriminate.
Defined.

Example nearest_facility_tie_is_first :
  exists row,
    nearest_facility (to_crs 27700 Town.pharmacies) (Plane.Pt 1550 0) = inr row /\
    props row !! "PharmacyName" = Some (VStr "Monkbar Pharmacy") /\
    props row !! "distance" = Some (VFloat (F64.of_Z 1650)) /\
    geometry_distance (to_crs 27700 Town.pharmacies) (Plane.Pt 1550 0) =
      [F64.of_Z 1650; F64.of_Z 1650].
Proof. eexists. split; [reflexivity|]. repeat split; reflexivity. Qed.

Definition valid_coordinates (latitude longitude : float) : Prop :=
  F64.in_range (F64.opp (F64.of_Z 90)) (F64.of_Z 90) latitude /\
  F64.in_range (F64.opp (F64.of_Z 180)) (F64.of_Z 180) longitude.

(** The handler past its guards, in terms of the two resolutions. *)
Lemma nearest_gp_pharmacy_run `{GeoLib} (w : world) (latitude longitude : float) :
  valid_coordinates latitude longitude ->
  gp_gdf w <> [] -> pharmacy_gdf w <> [] ->
  run (nearest_gp_pharmacy latitude longitude) w =
    match nearest_facility (to_crs 27700 (gp_gdf w))
                           (crs_transform 27700 (Point longitude latitude)) with
    | inl e => (inl e, w, [EvToCrs; EvToCrs; EvToCrs; EvDistance])
    | inr nearest_gp =>
        match geometry_xy nearest_gp with
        | inl e => (inl e, w, [EvToCrs; EvToCrs; EvToCrs; EvDistance])
        | inr xy =>
            match nearest_facility (to_crs 27700 (pharmacy_gdf w)) (Point xy.1 xy.2) with
            | inl e => (inl e, w, [EvToCrs; EvToCrs; EvToCrs; EvDistance; EvDistance])
            | inr nearest_pharmacy_to_gp =>
                (match json_response_of nearest_gp nearest_pharmacy_to_gp with
                 | inl e => inl e
                 | inr json_response => inr (JSONResponse 200 json_response)
                 end, w, [EvToCrs; EvToCrs; EvToCrs; EvDistance; EvDistance])
            end
        end
    end.
Proof.
  intros [Hlat Hlon] Hgp Hpharmacy.
  assert (invalid_coordinates latitude longitude = false) as Hok.
  { apply not_true_iff_false. rewrite invalid_coordinates_spec. tauto. }
  unfold nearest_gp_pharmacy. rewrite Hok. run_handler.
  rewrite (empty_false _ Hgp), (empty_false _ Hpharmacy). simpl.
  repeat match goal with
  | |- context [exn_bind nat Row
                  (loc (set_column "distance" (VFloat <$> geometry_distance ?g ?p) ?g))
                  (idxmin (geometry_distance ?g ?p))] =>
      change (exn_bind nat Row
                (loc (set_column "distance" (VFloat <$> geometry_distance g p) g))
                (idxmin (geometry_distance g p)))
        with (nearest_facility g p)
  end.
  destruct (nearest_facility (to_crs 27700 (gp_gdf w)) _) as [e|nearest_gp];
    [reflexivity|].
  destruct (geometry_xy nearest_gp) as [e|xy]; [reflexivity|].
  repeat match goal with
  | |- context [exn_bind nat Row
                  (loc (set_column "distance" (VFloat <$> geometry_distance ?g ?p) ?g))
                  (idxmin (geometry_distance ?g ?p))] =>
      change (exn_bind nat Row
                (loc (set_column "distance" (VFloat <$> geometry_distance g p) g))
                (idxmin (geometry_distance g p)))
        with (nearest_facility g p)
  end.
  destruct (nearest_facility (to_crs 27700 (pharmacy_gdf w)) _) as [e|nearest_pharmacy];
    [reflexivity|].
  by destruct (json_response_of nearest_gp nearest_pharmacy).
Qed.



Lemma valid_coordinates_origin : valid_coordinates (F64.of_Z 0) (F64.of_Z 0).
Proof. repeat split; left; vm_compute; reflexivity. Qed.


(** From the origin of the town the nearest surgery is Park View Surgery
    (3000 m); the pharmacy reported is Whitworth Chemists, 200 m from that
    surgery, although Monkbar Pharmacy is the one nearest to the origin. *)
Example chained_search_in_town :
  (run (nearest_gp_pharmacy (F64.of_Z 0) (F64.of_Z 0)) Town.loaded).1.1 =
    inr (JSONResponse 200 (VDict [
      ("nearest_gp", VDict [
         ("name", VStr "Park View Surgery");
         ("address", VDict [
            ("address1", VStr "Park View Surgery");
            ("address2", VStr "28 Millfield Ave, Hull Road");
            ("town", VStr "York"); ("postcode", VStr "YO10 3AB")]);
         ("opening_hours", VDict [
            ("mondayToFriday", VStr "8:30am - 6pm");
            ("saturday", VStr "Closed"); ("sunday", VStr "Closed")]);
         ("distance_meters", VFloat (F64.of_Z 3000))]);
      ("nearest_pharmacy_from_gp", VDict [
         ("pharmacyName", VStr "Whitworth Chemists Ltd");
         ("address", VDict [
            ("address1", VStr "275 Melrosegate");
            ("address2", VStr EmptyString); ("address3", VStr EmptyString);
            ("postcode", VStr "YO10 3SN")]);
         ("distanceInMetres", VFloat (F64.of_Z 200))])])) /\
  exists row,
    nearest_facility (to_crs 27700 Town.pharmacies)
                     (crs_transform 27700 (Point (F64.of_Z 0) (F64.of_Z 0))) = inr row /\
    props row !! "PharmacyName" = Some (VStr "Monkbar Pharmacy").
Proof. split; [reflexivity|]. eexists. split; reflexivity. Qed.

(** ** Counting bins in polygons (C3, C10, C1) *)

(** The number of rows of [bins] whose geometry is within the polygon. *)
Definition bins_within `{GeoLib} (bins : GeoDataFrame) (polygon : Row) : nat :=
  length (filter (fun b => within (geometry b) (geometry polygon) = true) bins).

(** The polygon with that number in its column "bin_count". *)
Definition counted `{GeoLib} (bins : GeoDataFrame) (polygon : Row) : Row :=
  mkRow _ (geometry polygon)
        (<["bin_count" := VInt (Z.of_nat (bins_within bins polygon))]> (props polygon)).

Definition count_label (j : nat) (labels : list nat) : nat :=
  length (filter (fun k => k = j) labels).

Lemma count_label_cons (j k : nat) (labels : list nat) :
  count_label j (k :: labels) =
  ((if decide (k = j) then 1 else 0) + count_label j labels)%nat.
Proof. unfold count_label. rewrite filter_cons. by case_decide. Qed.

Lemma count_label_app (j : nat) (l1 l2 : list nat) :
  count_label j (l1 ++ l2) = (count_label j l1 + count_label j l2)%nat.
Proof. unfold count_label. by rewrite filter_app, length_app. Qed.

Lemma within_labels_ge `{GeoLib} (g : geom) (right : GeoDataFrame) :
  forall label k, k ∈ within_labels g right label -> (label <= k)%nat.
Proof.
  induction right as [|r right IH]; intros label k Hk; simpl in Hk.
  - by apply not_elem_of_nil in Hk.
  - destruct (within g (geometry r)).
    + apply elem_of_cons in Hk as [->|Hk]; [lia|]. apply IH in Hk. lia.
    + apply IH in Hk. lia.
Qed.

Lemma count_label_below `{GeoLib} (g : geom) (right : GeoDataFrame) (label j : nat) :
  (j < label)%nat -> count_label j (within_labels g right label) = 0%nat.
Proof.
  intros Hj.
  assert (forall labels : list nat, j ∉ labels -> count_label j labels = 0%nat) as Hzero.
  { induction labels as [|k labels IH]; intros Hnot; [reflexivity|].
    apply not_elem_of_cons in Hnot as [Hne Hnot].
    rewrite count_label_cons, decide_False by done. by apply IH. }
  apply Hzero. intros Hk. apply within_labels_ge in Hk. lia.
Qed.

Lemma count_label_within_labels `{GeoLib} (g : geom) (right : GeoDataFrame) :
  forall label k,
  count_label (label + k) (within_labels g right label) =
  match right !! k with
  | Some r => if within g (geometry r) then 1%nat else 0%nat
  | None => 0%nat
  end.
Proof.
  induction right as [|r right IH]; intros label k; [by destruct k|].
  simpl. destruct k as [|k]; simpl.
  - replace (label + 0)%nat with label by lia.
    destruct (within g (geometry r)).
    + rewrite count_label_cons, decide_True by done.
      rewrite count_label_below by lia. reflexivity.
    + apply count_label_below. lia.
  - replace (label + S k)%nat with (S label + k)%nat by lia.
    destruct (within g (geometry r)).
    + rewrite count_label_cons, decide_False by lia. apply IH.
    + apply IH.
Qed.

Lemma groupby_size_lookup (joined : list (nat * nat)) (j : nat) :
  default 0%nat (groupby_size joined !! j) = count_label j joined.*2.
Proof.
  induction joined as [|[i k] joined IH]; [reflexivity|].
  change (groupby_size ((i, k) :: joined))
    with (<[k := S (default 0%nat (groupby_size joined !! k))]> (groupby_size joined)).
  rewrite fmap_cons, count_label_cons. cbn [snd].
  destruct (decide (k = j)) as [->|Hne].
  - by rewrite lookup_insert_eq, <- IH.
  - by rewrite lookup_insert_ne.
Qed.

Lemma bins_within_cons `{GeoLib} (b : Row) (bins : GeoDataFrame) (polygon : Row) :
  bins_within (b :: bins) polygon =
  ((if within (geometry b) (geometry polygon) then 1 else 0)
   + bins_within bins polygon)%nat.
Proof.
  unfold bins_within. rewrite filter_cons.
  destruct (within (geometry b) (geometry polygon)); by case_decide.
Qed.

Lemma snd_pair_fmap (i : nat) (labels : list nat) : (pair i <$> labels).*2 = labels.
Proof. induction labels as [|k labels IH]; [reflexivity|]. simpl. by f_equal. Qed.

Lemma count_label_sjoin `{GeoLib} (left right : GeoDataFrame) (j : nat) (polygon : Row) :
  right !! j = Some polygon ->
  forall label, count_label j (sjoin_from label left right).*2 = bins_within left polygon.
Proof.
  intros Hj. induction left as [|l left IH]; intros label; [reflexivity|].
  change (sjoin_from label (l :: left) right)
    with ((pair label <$> within_labels (geometry l) right 0)
          ++ sjoin_from (S label) left right)%list.
  rewrite fmap_app, count_label_app, IH, bins_within_cons.
  rewrite snd_pair_fmap.
  pose proof (count_label_within_labels (geometry l) right 0 j) as Hc.
  simpl in Hc. by rewrite Hc, Hj.
Qed.

Lemma index_map_fillna_counts `{GeoLib} (left right : GeoDataFrame) :
  index_map_fillna right (groupby_size (sjoin_within left right)) =
  (fun polygon => Z.of_nat (bins_within left polygon)) <$> right.
Proof.
  apply list_eq. intros j. unfold index_map_fillna.
  change (map ?f ?l) with (f <$> l). rewrite !list_lookup_fmap.
  destruct (right !! j) as [polygon|] eqn:Hj; simpl.
  - rewrite lookup_seq_lt by (by eapply lookup_lt_Some). simpl.
    rewrite groupby_size_lookup. unfold sjoin_within.
    by rewrite (count_label_sjoin left right j polygon Hj).
  - rewrite lookup_seq_ge; [done|]. by apply lookup_ge_None.
Qed.

Lemma set_column_bin_count `{GeoLib} (left right : GeoDataFrame) :
  set_column "bin_count"
    (VInt <$> index_map_fillna right (groupby_size (sjoin_within left right))) right =
  counted left <$> right.
Proof.
  rewrite index_map_fillna_counts. unfold set_column.
  rewrite <- list_fmap_compose, zip_with_fmap_r, zip_with_diag. reflexivity.
Qed.

(** The join has one row per matched pair: its length is the sum, over
    the right rows, of the number of left rows within each. *)
Lemma length_within_labels `{GeoLib} (g : geom) (right : GeoDataFrame) (label : nat) :
  length (within_labels g right label) =
  sum_list ((fun r => if within g (geometry r) then 1%nat else 0%nat) <$> right).
Proof.
  revert label. induction right as [|r right IH]; intros label; [reflexivity|].
  csimpl. destruct (within g (geometry r)); csimpl; by rewrite IH.
Qed.

Lemma sum_list_fmap_add {A : Type} (f g : A -> nat) (l : list A) :
  sum_list ((fun x => f x + g x)%nat <$> l) =
  (sum_list (f <$> l) + sum_list (g <$> l))%nat.
Proof. induction l as [|x l IH]; [reflexivity|]. csimpl. rewrite IH. lia. Qed.

Lemma sum_bins_within `{GeoLib} (left right : GeoDataFrame) (label : nat) :
  sum_list (bins_within left <$> right) = length (sjoin_from label left right).
Proof.
  revert label. induction left as [|l left IH]; intros label.
  - simpl. induction right as [|r right IHr]; [reflexivity|]. csimpl. by rewrite IHr.
  - csimpl. rewrite length_app, length_fmap, <- (IH (S label)).
    rewrite length_within_labels, <- sum_list_fmap_add.
    f_equal. apply list_fmap_ext. intros _ r _. apply bins_within_cons.
Qed.

(** The globals after a run of [find_bins] past its guards. *)
Definition after_find_bins `{GeoLib} (w : world) : world :=
  mkWorld _ (gp_gdf w) (pharmacy_gdf w) (bins_gdf w)
          (counted (bins_gdf w) <$> nature_reserves_gdf w)
          (counted (bins_gdf w) <$> conservation_areas_gdf w).

(** The report built from the counted polygons. *)
Definition bins_report `{GeoLib} (w : world) : exn + response :=
  match mapE nature_reserve_record (counted (bins_gdf w) <$> nature_reserves_gdf w) with
  | inl e => inl e
  | inr nature_reserve_bin_count =>
      match mapE conservation_area_record
                 (counted (bins_gdf w) <$> conservation_areas_gdf w) with
      | inl e => inl e
      | inr conservation_area_bin_count =>
          inr (JSONResponse 200 (VDict [
            ("nature_reserve_bin_count", VList nature_reserve_bin_count);
            ("conservation_area_bin_count", VList conservation_area_bin_count)]))
      end
  end.

Lemma find_bins_run `{GeoLib} (w : world) :
  bins_gdf w <> [] -> nature_reserves_gdf w <> [] -> conservation_areas_gdf w <> [] ->
  run find_bins w = (bins_report w, after_find_bins w, [EvSjoin; EvSjoin]).
Proof.
  intros Hbins Hnature Hareas. unfold find_bins. run_handler.
  rewrite (empty_false _ Hbins), (empty_false _ Hnature), (empty_false _ Hareas).
  simpl. rewrite !set_column_bin_count.
  unfold bins_report, after_find_bins, set_conservation_areas_gdf,
    set_nature_reserves_gdf. simpl.
  destruct (mapE nature_reserve_record _) as [e|nr]; [reflexivity|].
  by destruct (mapE conservation_area_record _) as [e|ca].
Qed.



(** Every row of the frame has the listed columns. *)
Definition has_columns `{GeoLib} (columns : list string) (gdf : GeoDataFrame) : Prop :=
  Forall (fun row => Forall (fun c => is_Some (props row !! c)) columns) gdf.

Lemma mapE_Forall2 {A B : Type} (f : A -> exn + B) (P : A -> B -> Prop) (l : list A) :
  (forall x y, f x = inr y -> P x y) ->
  forall ys, mapE f l = inr ys -> Forall2 P l ys.
Proof.
  intros Hf. induction l as [|x l IH]; intros ys Hys; simpl in Hys.
  - injection Hys as <-. constructor.
  - destruct (f x) as [e|y] eqn:Hx; [done|].
    destruct (mapE f l) as [e|ys'] eqn:Hl; [done|].
    injection Hys as <-. constructor; auto.
Qed.


Lemma mapE_total {A B : Type} (f : A -> exn + B) (l : list A) :
  Forall (fun x => exists y, f x = inr y) l -> exists ys, mapE f l = inr ys.
Proof.
  induction 1 as [|x l [y Hy] _ [ys Hys]]; [by exists []|].
  exists (y :: ys). simpl. by rewrite Hy, Hys.
Qed.










(** The number of point features that the join matched: the distinct
    left labels among its rows. *)
Definition matched_points (joined : list (nat * nat)) : nat :=
  length (remove_dups joined.*1).


(** ** Repeating the aggregation (C10) *)

Definition some_frame_empty `{GeoLib} (w : world) : bool :=
  empty (bins_gdf w) || empty (nature_reserves_gdf w) || empty (conservation_areas_gdf w).

Lemma find_bins_guarded `{GeoLib} (w : world) :
  some_frame_empty w = true -> (run find_bins w).1.2 = w.
Proof.
  unfold some_frame_empty, find_bins. intros Hempty. run_handler.
  destruct (empty (bins_gdf w)) eqn:E1; [reflexivity|]. simpl.
  destruct (empty (nature_reserves_gdf w)) eqn:E2; [reflexivity|]. simpl.
  destruct (empty (conservation_areas_gdf w)) eqn:E3; [reflexivity|]. done.
Qed.

Lemma some_frame_empty_false `{GeoLib} (w : world) :
  some_frame_empty w = false ->
  bins_gdf w <> [] /\ nature_reserves_gdf w <> [] /\ conservation_areas_gdf w <> [].
Proof.
  unfold some_frame_empty.
  destruct (bins_gdf w), (nature_reserves_gdf w), (conservation_areas_gdf w); done.
Qed.

Lemma counted_counted `{GeoLib} (bins : GeoDataFrame) (polygon : Row) :
  counted bins (counted bins polygon) = counted bins polygon.
Proof. unfold counted, bins_within. simpl. by rewrite insert_insert_eq. Qed.

Lemma counted_frame_counted `{GeoLib} (bins gdf : GeoDataFrame) :
  counted bins <$> (counted bins <$> gdf) = counted bins <$> gdf.
Proof.
  rewrite <- list_fmap_compose. apply list_fmap_ext.
  intros _ polygon _. apply counted_counted.
Qed.

Lemma after_find_bins_twice `{GeoLib} (w : world) :
  after_find_bins (after_find_bins w) = after_find_bins w.
Proof. unfold after_find_bins. simpl. by rewrite !counted_frame_counted. Qed.

Lemma bins_report_after `{GeoLib} (w : world) :
  bins_report (after_find_bins w) = bins_report w.
Proof. unfold bins_report, after_find_bins. simpl. by rewrite !counted_frame_counted. Qed.

(** C10: a second run of /bins-in-nature-areas, on the globals the first
    run left behind, gives the response of the first run and leaves the
    globals as the first run left them: the column bin_count is computed
    from the geometries alone and overwritten with the same numbers. *)
Theorem find_bins_idempotent `{GeoLib} (w : world) :
  (run find_bins (run find_bins w).1.2).1.1 = (run find_bins w).1.1 /\
  (run find_bins (run find_bins w).1.2).1.2 = (run find_bins w).1.2.
Proof.
  destruct (some_frame_empty w) eqn:Hempty.
  - pose proof (find_bins_guarded w Hempty) as Hsame. rewrite Hsame. by split.
  - apply some_frame_empty_false in Hempty as (Hbins & Hnature & Hareas).
    rewrite (find_bins_run w Hbins Hnature Hareas). simpl.
    rewrite (find_bins_run (after_find_bins w)).
    + simpl. by rewrite bins_report_after, after_find_bins_twice.
    + exact Hbins.
    + simpl. by destruct (nature_reserves_gdf w).
    + simpl. by destruct (conservation_areas_gdf w).
Qed.

Example find_bins_twice_in_town :
  (run find_bins (run find_bins Town.loaded).1.2).1.1 = (run find_bins Town.loaded).1.1 /\
  (run find_bins Town.loaded).1.2 = after_find_bins Town.loaded.
Proof. split; reflexivity. Qed.

(** ** The base frames across requests (C1) *)

(** A handler step that leaves the globals as they are. *)
Definition readonly `{GeoLib} {A : Type} (m : M A) : Prop :=
  forall w l, (m w l).1.2 = w.

Lemma readonly_ret `{GeoLib} {A : Type} (a : A) : readonly (mret a).
Proof. by intros w l. Qed.

Lemma readonly_bind `{GeoLib} {A B : Type} (m : M A) (f : A -> M B) :
  readonly m -> (forall a, readonly (f a)) -> readonly (m ≫= f).
Proof.
  intros Hm Hf w l. unfold mbind, M_bind. specialize (Hm w l).
  destruct (m w l) as [[[e|a] w'] l']; simpl in *; [done|].
  subst w'. apply Hf.
Qed.

Lemma readonly_raise `{GeoLib} {A : Type} (e : exn) : readonly (raise (A := A) e).
Proof. by intros w l. Qed.

Lemma readonly_lift `{GeoLib} {A : Type} (r : exn + A) : readonly (lift r).
Proof. by intros w l. Qed.

Lemma readonly_emit `{GeoLib} (ev : event) : readonly (emit ev).
Proof. by intros w l. Qed.

Lemma readonly_gets `{GeoLib} {A : Type} (f : world -> A) : readonly (gets f).
Proof. by intros w l. Qed.

Lemma readonly_try_except `{GeoLib} {A : Type} (body : M A)
    (on_value on_other : exn -> M A) :
  readonly body -> (forall e, readonly (on_value e)) ->
  (forall e, readonly (on_other e)) ->
  readonly (try_except body on_value on_other).
Proof.
  intros Hbody Hvalue Hother w l. unfold try_except. specialize (Hbody w l).
  destruct (body w l) as [[[e|a] w'] l']; simpl in *; [|done].
  subst w'. destruct (is_ValueError e); [apply Hvalue|apply Hother].
Qed.

Create HintDb readonly.
#[global] Hint Resolve readonly_ret readonly_raise readonly_lift readonly_emit
  readonly_gets : readonly.

Ltac readonly_step :=
  match goal with
  | |- readonly (mbind _ _) => apply readonly_bind; [|intros ?]
  | |- readonly (try_except _ _ _) => apply readonly_try_except; [|intros ?|intros ?]
  | |- readonly (if ?b then _ else _) => destruct b
  | |- readonly (match ?x with _ => _ end) => destruct x
  | |- readonly _ => solve [auto with readonly]
  end.

Ltac solve_readonly :=
  unfold transform_to_bng, point_to_crs, distance_to, buffer_of, within_of, sjoin,
         read, loads;
  cbv zeta; repeat (readonly_step; cbv zeta).

Lemma nearest_gp_pharmacy_readonly `{GeoLib} (latitude longitude : float) :
  readonly (nearest_gp_pharmacy latitude longitude).
Proof. unfold nearest_gp_pharmacy. solve_readonly. Qed.

Lemma gp_within_radius_readonly `{GeoLib} (latitude longitude radius : float) :
  readonly (gp_within_radius latitude longitude radius).
Proof. unfold gp_within_radius. solve_readonly. Qed.

Lemma upload_geojson_readonly `{GeoLib} `{JsonLib} (file : UploadFile) :
  readonly (upload_geojson file).
Proof. unfold upload_geojson. solve_readonly. Qed.

(** The frame [current] has the rows of [loaded], in the same order, with
    the same geometry and the same cells in every column but "bin_count". *)
Definition same_but_bin_count `{GeoLib} (loaded current : GeoDataFrame) : Prop :=
  Forall2 (fun row row' =>
             geometry row' = geometry row /\
             delete "bin_count" (props row') = delete "bin_count" (props row))
          loaded current.

Definition base_frames_kept `{GeoLib} (loaded current : world) : Prop :=
  gp_gdf current = gp_gdf loaded /\
  pharmacy_gdf current = pharmacy_gdf loaded /\
  bins_gdf current = bins_gdf loaded /\
  same_but_bin_count (nature_reserves_gdf loaded) (nature_reserves_gdf current) /\
  same_but_bin_count (conservation_areas_gdf loaded) (conservation_areas_gdf current).

(** The globals after a sequence of requests, handled one after another. *)
Fixpoint serve `{GeoLib} `{JsonLib} (requests : list request) (w : world) : world :=
  match requests with
  | [] => w
  | req :: requests' => serve requests' (run (handle req) w).1.2
  end.

Lemma same_but_bin_count_refl `{GeoLib} (gdf : GeoDataFrame) :
  same_but_bin_count gdf gdf.
Proof. apply Forall2_same_length_lookup_2; [done|]. by intros i row row' -> [= ->]. Qed.

Lemma same_but_bin_count_trans `{GeoLib} (a b c : GeoDataFrame) :
  same_but_bin_count a b -> same_but_bin_count b c -> same_but_bin_count a c.
Proof.
  unfold same_but_bin_count. intros Hab. revert c.
  induction Hab as [|x y a b [Hg1 Hp1] _ IH]; intros c Hbc.
  - inversion Hbc. constructor.
  - inversion Hbc as [|? z ? c' [Hg2 Hp2] Hbc']; subst.
    constructor; [split; congruence|by apply IH].
Qed.

Lemma same_but_bin_count_counted `{GeoLib} (bins gdf : GeoDataFrame) :
  same_but_bin_count gdf (counted bins <$> gdf).
Proof.
  unfold same_but_bin_count. apply Forall2_fmap_r, Forall_Forall2_diag, Forall_forall.
  intros polygon _. split; [reflexivity|]. unfold counted. simpl.
  apply delete_insert_eq.
Qed.

Lemma base_frames_kept_refl `{GeoLib} (w : world) : base_frames_kept w w.
Proof. repeat split; apply same_but_bin_count_refl. Qed.

Lemma base_frames_kept_trans `{GeoLib} (a b c : world) :
  base_frames_kept a b -> base_frames_kept b c -> base_frames_kept a c.
Proof.
  intros (G1 & P1 & B1 & N1 & C1) (G2 & P2 & B2 & N2 & C2).
  repeat split; try congruence; eauto using same_but_bin_count_trans.
Qed.

Lemma find_bins_keeps_base `{GeoLib} (w : world) :
  base_frames_kept w (run find_bins w).1.2.
Proof.
  destruct (some_frame_empty w) eqn:Hempty.
  - rewrite (find_bins_guarded w Hempty). apply base_frames_kept_refl.
  - apply some_frame_empty_false in Hempty as (Hbins & Hnature & Hareas).
    rewrite (find_bins_run w Hbins Hnature Hareas). simpl.
    repeat split; apply same_but_bin_count_counted.
Qed.

Lemma handle_other_readonly `{GeoLib} `{JsonLib} (req : request) (w : world) :
  req <> GET_bins_in_nature_areas -> (run (handle req) w).1.2 = w.
Proof.
  intros Hreq. destruct req; simpl; try done.
  - apply nearest_gp_pharmacy_readonly.
  - apply gp_within_radius_readonly.
  - apply upload_geojson_readonly.
Qed.

Lemma handle_keeps_base `{GeoLib} `{JsonLib} (req : request) (w : world) :
  base_frames_kept w (run (handle req) w).1.2.
Proof.
  destruct req; try (rewrite handle_other_readonly by done; apply base_frames_kept_refl).
  apply find_bins_keeps_base.
Qed.

(** C1 as stated fails: /bins-in-nature-areas assigns the column
    "bin_count" of the two polygon frames, which the loaded frames of the
    town do not have. *)
Lemma find_bins_writes_bin_count :
  (nature_reserves_gdf Town.loaded !! 0%nat) ≫= (fun row => props row !! "bin_count")
    = None /\
  (nature_reserves_gdf (run (handle GET_bins_in_nature_areas) Town.loaded).1.2 !! 0%nat)
    ≫= (fun row => props row !! "bin_count") = Some (VInt 2) /\
  (conservation_areas_gdf Town.loaded !! 0%nat) ≫= (fun row => props row !! "bin_count")
    = None /\
  (conservation_areas_gdf (run (handle GET_bins_in_nature_areas) Town.loaded).1.2 !! 0%nat)
    ≫= (fun row => props row !! "bin_count") = Some (VInt 2).
Proof. repeat split; reflexivity. Qed.

(** C1, amended: after any sequence of handled requests the GP, pharmacy
    and bin frames equal their state at load time, and the nature-reserve
    and conservation-area frames have their rows, order, geometries and
    cells of load time in every column but "bin_count" (which
    /bins-in-nature-areas assigns); a sequence without a request to
    /bins-in-nature-areas leaves all five frames as loaded. *)
Theorem base_frames_after_requests `{GeoLib} `{JsonLib}
    (requests : list request) (w : world) :
  base_frames_kept w (serve requests w) /\
  (GET_bins_in_nature_areas ∉ requests -> serve requests w = w).
Proof.
  revert w. induction requests as [|req requests IH]; intros w.
  - split; [apply base_frames_kept_refl|done].
  - simpl. destruct (IH (run (handle req) w).1.2) as [Hkept Hsame]. split.
    + eapply base_frames_kept_trans; [apply handle_keeps_base|exact Hkept].
    + intros Hnot. apply not_elem_of_cons in Hnot as [Hne Hnot].
      rewrite (Hsame Hnot). apply handle_other_readonly. congruence.
Qed.

(** ** The upload endpoint (C2, C6) *)

Definition body_size (file : UploadFile) : Z := Z.of_nat (length (file_bytes file)).

(** The answer to a parsed upload: the verdict on "features", then the
    summary; a [ValueError] on the way is answered 400, any other
    exception 500. *)
Definition answer_parsed (geojson_data : value) : response * list event :=
  let failed (e : exn) (before : list event) :=
    (JSONResponse (if is_ValueError e then 400 else 500) (error_body (exn_str e)),
     (before ++ [EvLog ERROR ("Unexpected error: " ++ exn_str e)])%list) in
  match contains geojson_data "features" with
  | inl e => failed e []
  | inr false =>
      failed (ValueError "Uploaded file is not a valid GeoJSON file.")
             [EvLog WARNING "Uploaded GeoJSON file does not contain features"]
  | inr true =>
      match summary_of geojson_data ≫= rendered 200 with
      | inl e => failed e []
      | inr answer => (answer, [])
      end
  end.

(** The handler on a file with the right extension, by size and by what
    [json.loads] makes of the content. *)
Lemma upload_geojson_run `{GeoLib} `{JsonLib} (file : UploadFile) (w : world) :
  endswith (filename file) ".geojson" = true ->
  run (upload_geojson file) w =
    if body_size file >? MAX_UPLOAD_SIZE then
      (inr (JSONResponse 400 (error_body "File is too large.")), w,
       [EvFileRead; EvLog WARNING "File too large"])
    else
      match json_loads (file_bytes file) with
      | inl e =>
          (inr (JSONResponse (if is_ValueError e then 400 else 500)
                             (error_body (exn_str e))), w,
           [EvFileRead; EvJsonLoads; EvLog ERROR ("Unexpected error: " ++ exn_str e)])
      | inr geojson_data =>
          (inr (answer_parsed geojson_data).1, w,
           ([EvFileRead; EvJsonLoads] ++ (answer_parsed geojson_data).2)%list)
      end.
Proof.
  intros Hext. unfold upload_geojson, try_except, body_size, answer_parsed, read, loads.
  rewrite Hext. run_handler.
  destruct (_ >? MAX_UPLOAD_SIZE); [reflexivity|].
  destruct (json_loads (file_bytes file)) as [e|geojson_data]; simpl.
  { by destruct (is_ValueError e). }
  destruct (contains geojson_data "features") as [e|[]]; simpl.
  - by destruct (is_ValueError e).
  - destruct (summary_of geojson_data) as [e|summary]; simpl.
    { by destruct (is_ValueError e). }
    destruct (rendered 200 summary) as [e|answer]; simpl; [|reflexivity].
    by destruct (is_ValueError e).
  - reflexivity.
Qed.

(** C2, amended: a file with the right extension whose content is larger
    than 50 MiB (52428800 bytes) is answered 400 "File is too large."
    after the read and before any call of [json.loads]; a file of at most
    50 MiB, the cap itself included, goes on to [json.loads]. *)
Theorem upload_size_cap `{GeoLib} `{JsonLib} (file : UploadFile) (w : world) :
  endswith (filename file) ".geojson" = true ->
  MAX_UPLOAD_SIZE = 52428800 /\
  (body_size file > MAX_UPLOAD_SIZE ->
   run (upload_geojson file) w =
     (inr (JSONResponse 400 (error_body "File is too large.")), w,
      [EvFileRead; EvLog WARNING "File too large"]) /\
   Forall (fun ev => is_parse_call ev = false) (run (upload_geojson file) w).2) /\
  (body_size file <= MAX_UPLOAD_SIZE ->
   exists outcome after,
     run (upload_geojson file) w =
       (outcome, w, ([EvFileRead; EvJsonLoads] ++ after)%list)).
Proof.
  intros Hext. split; [reflexivity|].
  rewrite (upload_geojson_run file w Hext). split.
  - intros Hbig. apply Z.gtb_gt in Hbig. rewrite Hbig.
    split; [reflexivity|]. by repeat constructor.
  - intros Hsmall. assert ((body_size file >? MAX_UPLOAD_SIZE) = false) as ->.
    { apply not_true_iff_false. rewrite Z.gtb_gt. lia. }
    destruct (json_loads (file_bytes file)) as [msg|geojson_data];
      eexists _, _; reflexivity.
Qed.

Definition geojson_upload (content : list byte) : UploadFile :=
  mkUploadFile "upload.geojson" "application/geo+json" content.

Lemma upload_size_cap_witness :
  MAX_UPLOAD_SIZE = 52428800 /\
  (body_size (geojson_upload (String.list_byte_of_string "{}")) > MAX_UPLOAD_SIZE ->
   run (upload_geojson (geojson_upload (String.list_byte_of_string "{}"))) Town.loaded =
     (inr (JSONResponse 400 (error_body "File is too large.")), Town.loaded,
      [EvFileRead; EvLog WARNING "File too large"]) /\
   Forall (fun ev => is_parse_call ev = false)
          (run (upload_geojson (geojson_upload (String.list_byte_of_string "{}")))
               Town.loaded).2) /\
  (body_size (geojson_upload (String.list_byte_of_string "{}")) <= MAX_UPLOAD_SIZE ->
   exists outcome after,
     run (upload_geojson (geojson_upload (String.list_byte_of_string "{}"))) Town.loaded =
       (outcome, Town.loaded, ([EvFileRead; EvJsonLoads] ++ after)%list)).
Proof.
  apply (upload_size_cap (geojson_upload (String.list_byte_of_string "{}")) Town.loaded).
  reflexivity.
Defined.

(** A feature collection without features, padded with spaces. *)
Definition padded_collection (padding : nat) : list byte :=
  String.list_byte_of_string Documents.empty_collection ++ replicate padding " "%byte.

Lemma forallb_is_ws_spaces (n : nat) :
  forallb Documents.is_ws (replicate n " "%byte) = true.
Proof. induction n as [|n IH]; [reflexivity|]. simpl. exact IH. Qed.

Lemma loads_padded_collection (padding : nat) :
  json_loads (padded_collection padding) = inr (VDict [("features", VList [])]).
Proof.
  unfold json_loads, documents_json, Documents.loads, padded_collection.
  simpl. by rewrite forallb_is_ws_spaces.
Qed.

Lemma length_padded_collection (padding : nat) :
  length (padded_collection padding) = (16 + padding)%nat.
Proof. unfold padded_collection. by rewrite length_app, length_replicate. Qed.

(** An upload of exactly 50 MiB. *)
Definition upload_at_cap : UploadFile :=
  geojson_upload (padded_collection (Z.to_nat (MAX_UPLOAD_SIZE - 16))).

(** C2 as stated fails at the cap: a file of exactly 52428800 bytes is
    read, parsed and summarised. *)
Lemma upload_of_50_MiB_is_parsed :
  body_size upload_at_cap = 50 * 1024 * 1024 /\
  endswith (filename upload_at_cap) ".geojson" = true /\
  run (upload_geojson upload_at_cap) Town.loaded =
    (inr (JSONResponse 200 (VDict [
       ("rows", VInt 0); ("columns", VList []); ("crs", VStr "N/A");
       ("geometry_types", VList [])])),
     Town.loaded, [EvFileRead; EvJsonLoads]).
Proof.
  assert (body_size upload_at_cap = 50 * 1024 * 1024) as Hsize.
  { unfold body_size, upload_at_cap, geojson_upload, file_bytes.
    rewrite length_padded_collection, Nat2Z.inj_add, Z2Nat.id; [reflexivity|].
    unfold MAX_UPLOAD_SIZE. lia. }
  split; [exact Hsize|]. split; [reflexivity|].
  rewrite upload_geojson_run by reflexivity. rewrite Hsize.
  change (50 * 1024 * 1024 >? MAX_UPLOAD_SIZE) with false. cbv iota.
  unfold upload_at_cap, geojson_upload, file_bytes.
  rewrite loads_padded_collection. reflexivity.
Qed.

(** What holds of C6: unparsable content, and parsed content that is a
    dict, a list or a string without "features", is answered 400 with an
    "error" entry; the verdict falls before the summary is built. *)
Lemma upload_rejects_invalid `{GeoLib} `{JsonLib} (file : UploadFile) (w : world) :
  endswith (filename file) ".geojson" = true ->
  body_size file <= MAX_UPLOAD_SIZE ->
  (exists msg, json_loads (file_bytes file) = inl (ValueError msg)) \/
  (exists geojson_data,
     json_loads (file_bytes file) = inr geojson_data /\
     contains geojson_data "features" = inr false) ->
  exists msg after,
    run (upload_geojson file) w =
      (inr (JSONResponse 400 (error_body msg)), w,
       ([EvFileRead; EvJsonLoads] ++ after)%list) /\
    (forall geojson_data, json_loads (file_bytes file) = inr geojson_data ->
       msg = "Uploaded file is not a valid GeoJSON file.").
Proof.
  intros Hext Hsize Hinvalid. rewrite (upload_geojson_run file w Hext).
  assert ((body_size file >? MAX_UPLOAD_SIZE) = false) as ->.
  { apply not_true_iff_false. rewrite Z.gtb_gt. lia. }
  destruct Hinvalid as [[msg ->]|(geojson_data & -> & Hlacks)].
  - exists msg. eexists. split; [reflexivity|]. intros ? [=].
  - unfold answer_parsed. rewrite Hlacks. simpl.
    eexists _, _. split; [reflexivity|]. done.
Qed.

(** A parsed document that is no container has no membership test: the
    verdict on "features" raises a [TypeError], which the handler answers
    500. *)
Lemma upload_of_scalar_is_500 `{GeoLib} `{JsonLib} (file : UploadFile) (w : world)
    (geojson_data : value) :
  endswith (filename file) ".geojson" = true ->
  body_size file <= MAX_UPLOAD_SIZE ->
  json_loads (file_bytes file) = inr geojson_data ->
  match geojson_data with
  | VNone | VBool _ | VInt _ | VFloat _ => True
  | _ => False
  end ->
  exists msg after,
    run (upload_geojson file) w =
      (inr (JSONResponse 500 (error_body msg)), w,
       ([EvFileRead; EvJsonLoads] ++ after)%list).
Proof.
  intros Hext Hsize Hloads Hscalar. rewrite (upload_geojson_run file w Hext).
  assert ((body_size file >? MAX_UPLOAD_SIZE) = false) as ->.
  { apply not_true_iff_false. rewrite Z.gtb_gt. lia. }
  rewrite Hloads. unfold answer_parsed.
  destruct geojson_data; try done; simpl; eexists _, _; reflexivity.
Qed.

(** C6 (failing input): the upload "upload.geojson" with content
    [null] is within the cap and parses, to None, which has no top-level
    feature list; the handler answers 500, not 400. *)
Theorem upload_of_null_is_500 :
  body_size (geojson_upload (String.list_byte_of_string "null")) = 4 /\
  json_loads (String.list_byte_of_string "null") = inr VNone /\
  run (upload_geojson (geojson_upload (String.list_byte_of_string "null"))) Town.loaded =
    (inr (JSONResponse 500
            (error_body "argument of type 'NoneType' is not iterable")),
     Town.loaded,
     [EvFileRead; EvJsonLoads;
      EvLog ERROR "Unexpected error: argument of type 'NoneType' is not iterable"]).
Proof. repeat split; reflexivity. Qed.

(** The content of the repository's test for an invalid upload is
    answered 400, and so is a dict without "features". *)
Example upload_of_invalid_content_is_400 :
  run (upload_geojson (geojson_upload (String.list_byte_of_string "Invalid GeoJSON content")))
      Town.loaded =
    (inr (JSONResponse 400 (error_body "Expecting value: line 1 column 1 (char 0)")),
     Town.loaded,
     [EvFileRead; EvJsonLoads;
      EvLog ERROR "Unexpected error: Expecting value: line 1 column 1 (char 0)"]) /\
  run (upload_geojson (geojson_upload (String.list_byte_of_string "{}"))) Town.loaded =
    (inr (JSONResponse 400 (error_body "Uploaded file is not a valid GeoJSON file.")),
     Town.loaded,
     [EvFileRead; EvJsonLoads;
      EvLog WARNING "Uploaded GeoJSON file does not contain features";
      EvLog ERROR "Unexpected error: Uploaded file is not a valid GeoJSON file."]).
Proof. split; reflexivity. Qed.

(** * Further properties of the handlers *)

(** ** Data-availability guards *)

(** X1: with valid coordinates, /nearest-gp-pharmacy answers 500
    "GP data not available" when the GP frame is empty (whatever the
    pharmacy frame holds) and 500 "Pharmacy data not available" when only
    the pharmacy frame is empty; in both cases one error is logged, no
    reprojection or distance is computed and the globals stay as they
    are. *)
Theorem nearest_gp_pharmacy_data_guards `{GeoLib}
    (w : world) (latitude longitude : float) :
  valid_coordinates latitude longitude ->
  (gp_gdf w = [] ->
   run (nearest_gp_pharmacy latitude longitude) w =
     (inr (JSONResponse 500 (error_body "GP data not available")), w,
      [EvLog ERROR "GP GeoJSON data is not available."])) /\
  (gp_gdf w <> [] -> pharmacy_gdf w = [] ->
   run (nearest_gp_pharmacy latitude longitude) w =
     (inr (JSONResponse 500 (error_body "Pharmacy data not available")), w,
      [EvLog ERROR "Pharmacy GeoJSON data is not available."])).
Proof.
  intros [Hlat Hlon].
  assert (invalid_coordinates latitude longitude = false) as Hok.
  { apply not_true_iff_false. rewrite invalid_coordinates_spec. tauto. }
  unfold nearest_gp_pharmacy. rewrite Hok. run_handler. split.
  - intros Hgp. by rewrite Hgp.
  - intros Hgp Hpharmacy. rewrite (empty_false _ Hgp). simpl. by rewrite Hpharmacy.
Qed.

Definition no_pharmacies : world :=
  mkWorld _ Town.gps [] Town.bins Town.reserves Town.areas.

Lemma nearest_gp_pharmacy_data_guards_witness :
  run (nearest_gp_pharmacy (F64.of_Z 0) (F64.of_Z 0)) Town.no_surgeries =
    (inr (JSONResponse 500 (error_body "GP data not available")), Town.no_surgeries,
     [EvLog ERROR "GP GeoJSON data is not available."]) /\
  run (nearest_gp_pharmacy (F64.of_Z 0) (F64.of_Z 0)) no_pharmacies =
    (inr (JSONResponse 500 (error_body "Pharmacy data not available")), no_pharmacies,
     [EvLog ERROR "Pharmacy GeoJSON data is not available."]).
Proof.
  split.
  - apply (nearest_gp_pharmacy_data_guards Town.no_surgeries (F64.of_Z 0) (F64.of_Z 0)
             valid_coordinates_origin). reflexivity.
  - apply (nearest_gp_pharmacy_data_guards no_pharmacies (F64.of_Z 0) (F64.of_Z 0)
             valid_coordinates_origin); [discriminate|reflexivity].
Defined.

(** X2: a valid radius request on an empty GP frame is answered 500
    "GP data not available", with one error logged, before any
    reprojection, buffer or within test. *)
Theorem gp_within_radius_data_guard `{GeoLib}
    (w : world) (latitude longitude radius : float) :
  valid_radius_request latitude longitude radius ->
  gp_gdf w = [] ->
  run (gp_within_radius latitude longitude radius) w =
    (inr (JSONResponse 500 (error_body "GP data not available")), w,
     [EvLog ERROR "GP GeoJSON data is not available."]).
Proof.
  intros (Hlat & Hlon & Hradius) Hgp.
  assert (invalid_coordinates latitude longitude = false) as Hok.
  { apply not_true_iff_false. rewrite invalid_coordinates_spec. tauto. }
  assert (F64.leb radius (F64.of_Z 0) = false) as Hpos.
  { apply not_true_iff_false. by rewrite F64_leb_le. }
  unfold gp_within_radius. rewrite Hok, Hpos. run_handler. by rewrite Hgp.
Qed.

Lemma valid_radius_request_origin :
  valid_radius_request (F64.of_Z 0) (F64.of_Z 0) (F64.of_Z 1).
Proof.
  repeat split; try (left; vm_compute; reflexivity).
  intros [Hle|Hle]; vm_compute in Hle; discriminate.
Qed.

Lemma gp_within_radius_data_guard_witness :
  run (gp_within_radius (F64.of_Z 0) (F64.of_Z 0) (F64.of_Z 1)) Town.no_surgeries =
    (inr (JSONResponse 500 (error_body "GP data not available")), Town.no_surgeries,
     [EvLog ERROR "GP GeoJSON data is not available."]).
Proof.
  apply (gp_within_radius_data_guard Town.no_surgeries _ _ _ valid_radius_request_origin).
  reflexivity.
Defined.






(** X4: the guards of /bins-in-nature-areas are tried in the order bins,
    nature reserves, conservation areas: the first empty frame decides
    the 500 message; the globals are untouched, one error is logged and
    no join is run. *)
Theorem find_bins_data_guards `{GeoLib} (w : world) :
  (bins_gdf w = [] ->
   run find_bins w =
     (inr (JSONResponse 500 (error_body "Dog or Litter Bin data not available")), w,
      [EvLog ERROR "Dog or Litter Bin GeoJSON data is not available."])) /\
  (bins_gdf w <> [] -> nature_reserves_gdf w = [] ->
   run find_bins w =
     (inr (JSONResponse 500 (error_body "Nature Reserve data not available")), w,
      [EvLog ERROR "Nature Reserve GeoJSON data is not available."])) /\
  (bins_gdf w <> [] -> nature_reserves_gdf w <> [] -> conservation_areas_gdf w = [] ->
   run find_bins w =
     (inr (JSONResponse 500 (error_body "Conservation Area data not available")), w,
      [EvLog ERROR "Conservation Area GeoJSON data is not available."])).
Proof.
  unfold find_bins. run_handler. repeat split.
  - intros Hbins. by rewrite Hbins.
  - intros Hbins Hnature. rewrite (empty_false _ Hbins). simpl. by rewrite Hnature.
  - intros Hbins Hnature Hareas. rewrite (empty_false _ Hbins). simpl.
    rewrite (empty_false _ Hnature). simpl. by rewrite Hareas.
Qed.

Definition no_bins_no_reserves : world := mkWorld _ Town.gps Town.pharmacies [] [] Town.areas.
Definition no_reserves : world := mkWorld _ Town.gps Town.pharmacies Town.bins [] [].
Definition no_areas : world := mkWorld _ Town.gps Town.pharmacies Town.bins Town.reserves [].

Lemma find_bins_data_guards_witness :
  run find_bins no_bins_no_reserves =
    (inr (JSONResponse 500 (error_body "Dog or Litter Bin data not available")),
     no_bins_no_reserves,
     [EvLog ERROR "Dog or Litter Bin GeoJSON data is not available."]) /\
  run find_bins no_reserves =
    (inr (JSONResponse 500 (error_body "Nature Reserve data not available")), no_reserves,
     [EvLog ERROR "Nature Reserve GeoJSON data is not available."]) /\
  run find_bins no_areas =
    (inr (JSONResponse 500 (error_body "Conservation Area data not available")), no_areas,
     [EvLog ERROR "Conservation Area GeoJSON data is not available."]).
Proof.
  split; [|split].
  - apply (find_bins_data_guards no_bins_no_reserves). reflexivity.
  - apply (find_bins_data_guards no_reserves); [discriminate|reflexivity].
  - apply (find_bins_data_guards no_areas); [discriminate|discriminate|reflexivity].
Defined.

(** ** Records of the radius search *)

Definition gp_columns : list string :=
  ["Address_1"; "Address_2"; "Town"; "Postcode"; "opening_ho"; "Saturday"; "Sunday"].

(** The record of a GP row: its seven cells under the response's keys. *)
Definition gp_entry `{GeoLib} (row : Row) (record : value) : Prop :=
  exists address1 address2 town postcode openingHours saturday sunday,
    props row !! "Address_1" = Some address1 /\
    props row !! "Address_2" = Some address2 /\
    props row !! "Town" = Some town /\
    props row !! "Postcode" = Some postcode /\
    props row !! "opening_ho" = Some openingHours /\
    props row !! "Saturday" = Some saturday /\
    props row !! "Sunday" = Some sunday /\
    record = VDict [
      ("address1", address1); ("address2", address2); ("town", town);
      ("postcode", postcode); ("openingHours", openingHours);
      ("saturday", saturday); ("sunday", sunday)].

Lemma gp_record_ok `{GeoLib} (row : Row) (record : value) :
  gp_record row = inr record -> gp_entry row record.
Proof.
  unfold gp_record, getitem, gp_entry.
  destruct (props row !! "Address_1") as [address1|]; [|done].
  destruct (props row !! "Address_2") as [address2|]; [|done].
  destruct (props row !! "Town") as [town|]; [|done].
  destruct (props row !! "Postcode") as [postcode|]; [|done].
  destruct (props row !! "opening_ho") as [openingHours|]; [|done].
  destruct (props row !! "Saturday") as [saturday|]; [|done].
  destruct (props row !! "Sunday") as [sunday|]; [|done].
  simpl. intros [= <-].
  by exists address1, address2, town, postcode, openingHours, saturday, sunday.
Qed.

Lemma gp_record_error `{GeoLib} (row : Row) (e : exn) :
  gp_record row = inl e ->
  exists column, column ∈ gp_columns /\ props row !! column = None /\ e = KeyError column.
Proof.
  unfold gp_record, getitem, gp_columns.
  destruct (props row !! "Address_1") eqn:E1;
    [|intros [= <-]; exists "Address_1"; split; [set_solver|done]].
  destruct (props row !! "Address_2") eqn:E2;
    [|intros [= <-]; exists "Address_2"; split; [set_solver|done]].
  destruct (props row !! "Town") eqn:E3;
    [|intros [= <-]; exists "Town"; split; [set_solver|done]].
  destruct (props row !! "Postcode") eqn:E4;
    [|intros [= <-]; exists "Postcode"; split; [set_solver|done]].
  destruct (props row !! "opening_ho") eqn:E5;
    [|intros [= <-]; exists "opening_ho"; split; [set_solver|done]].
  destruct (props row !! "Saturday") eqn:E6;
    [|intros [= <-]; exists "Saturday"; split; [set_solver|done]].
  destruct (props row !! "Sunday") eqn:E7;
    [|intros [= <-]; exists "Sunday"; split; [set_solver|done]].
  done.
Qed.

Lemma gp_record_total `{GeoLib} (row : Row) :
  Forall (fun c => is_Some (props row !! c)) gp_columns ->
  exists record, gp_record row = inr record.
Proof.
  intros Hcols. destruct (gp_record row) as [e|record] eqn:Hrecord; [|by eexists].
  apply gp_record_error in Hrecord as (column & Hin & Hnone & _).
  rewrite Forall_forall in Hcols. destruct (Hcols column Hin) as [v Hv]. congruence.
Qed.

Lemma has_columns_to_crs `{GeoLib} (columns : list string) (crs : Z) (gdf : GeoDataFrame) :
  has_columns columns gdf -> has_columns columns (to_crs crs gdf).
Proof. unfold has_columns, to_crs. intros Hcols. by apply Forall_fmap. Qed.

(** Every row of the frame carries the columns, with cells that are
    JSON compliant (no NaN, as pandas stores a missing property). *)
Definition json_columns `{GeoLib} (columns : list string) (gdf : GeoDataFrame) : Prop :=
  Forall (fun row =>
            Forall (fun c => exists v, props row !! c = Some v /\ json_compliant v = true)
                   columns) gdf.

Lemma json_columns_has_columns `{GeoLib} (columns : list string) (gdf : GeoDataFrame) :
  json_columns columns gdf -> has_columns columns gdf.
Proof.
  unfold json_columns, has_columns. intros Hcols.
  eapply Forall_impl; [exact Hcols|]. intros row Hrow.
  eapply Forall_impl; [exact Hrow|]. intros c (v & Hv & _). by exists v.
Qed.

Lemma json_columns_to_crs `{GeoLib} (columns : list string) (crs : Z) (gdf : GeoDataFrame) :
  json_columns columns gdf -> json_columns columns (to_crs crs gdf).
Proof. unfold json_columns, to_crs. intros Hcols. by apply Forall_fmap. Qed.

Lemma gp_entry_json_compliant `{GeoLib} (row : Row) (record : value) :
  Forall (fun c => exists v, props row !! c = Some v /\ json_compliant v = true)
         gp_columns ->
  gp_entry row record -> json_compliant record = true.
Proof.
  intros Hcells (a1 & a2 & t & p & o & sa & su & H1 & H2 & H3 & H4 & H5 & H6 & H7 & ->).
  apply Forall_cons in Hcells as [(v1 & E1 & C1) Hcells].
  apply Forall_cons in Hcells as [(v2 & E2 & C2) Hcells].
  apply Forall_cons in Hcells as [(v3 & E3 & C3) Hcells].
  apply Forall_cons in Hcells as [(v4 & E4 & C4) Hcells].
  apply Forall_cons in Hcells as [(v5 & E5 & C5) Hcells].
  apply Forall_cons in Hcells as [(v6 & E6 & C6) Hcells].
  apply Forall_cons in Hcells as [(v7 & E7 & C7) _].
  rewrite H1 in E1. rewrite H2 in E2. rewrite H3 in E3. rewrite H4 in E4.
  rewrite H5 in E5. rewrite H6 in E6. rewrite H7 in E7.
  injection E1 as ->. injection E2 as ->. injection E3 as ->. injection E4 as ->.
  injection E5 as ->. injection E6 as ->. injection E7 as ->.
  simpl. by rewrite C1, C2, C3, C4, C5, C6, C7.
Qed.

Lemma gp_entries_json_compliant `{GeoLib} (rows : list Row) (records : list value) :
  Forall (fun row =>
            Forall (fun c => exists v, props row !! c = Some v /\ json_compliant v = true)
                   gp_columns) rows ->
  Forall2 gp_entry rows records ->
  forallb json_compliant records = true.
Proof.
  intros Hrows Hentries.
  induction Hentries as [|row record rows records Hentry _ IH]; [reflexivity|].
  apply Forall_cons in Hrows as [Hrow Hrows]. simpl.
  by rewrite (gp_entry_json_compliant row record Hrow Hentry), IH.
Qed.

(** X5: for a valid radius request whose radius is a finite number of
    metres, when every GP row carries the seven columns the handler
    reads with JSON compliant cells and some row is within the radius,
    the answer is 200 with one record per row within the radius, in
    frame order, each holding the cells of its row. *)
Theorem gp_within_radius_records `{GeoLib}
    (w : world) (latitude longitude radius : float) :
  valid_radius_request latitude longitude radius ->
  finite_in_metres radius ->
  json_columns gp_columns (gp_gdf w) ->
  within_radius w latitude longitude radius <> [] ->
  exists gp_data,
    run (gp_within_radius latitude longitude radius) w =
      (inr (JSONResponse 200 (VDict [("gp_data", VList gp_data)])), w,
       [EvToCrs; EvToCrs; EvBuffer; EvWithin]) /\
    Forall2 gp_entry (within_radius w latitude longitude radius) gp_data.
Proof.
  intros Hvalid Hfinite Hcols Hsome.
  assert (gp_gdf w <> []) as Hgp.
  { intros Hgp. apply Hsome. unfold within_radius. by rewrite Hgp. }
  rewrite (gp_within_radius_run w latitude longitude radius Hvalid Hfinite Hgp).
  assert (Forall (fun row =>
            Forall (fun c => exists v, props row !! c = Some v /\ json_compliant v = true)
                   gp_columns) (within_radius w latitude longitude radius)) as Hselected.
  { apply (json_columns_to_crs _ 27700) in Hcols. unfold json_columns in Hcols.
    rewrite Forall_forall in Hcols. apply Forall_forall. intros row Hrow.
    apply list_elem_of_filter in Hrow as [_ Hrow]. by apply Hcols. }
  destruct (mapE_total gp_record (within_radius w latitude longitude radius))
    as [gp_data Hdata].
  { eapply Forall_impl; [exact Hselected|]. intros row Hrow. apply gp_record_total.
    eapply Forall_impl; [exact Hrow|]. intros c (v & Hv & _). by exists v. }
  assert (Forall2 gp_entry (within_radius w latitude longitude radius) gp_data) as Hentries.
  { eapply mapE_Forall2; [|exact Hdata]. intros r record. apply gp_record_ok. }
  pose proof (gp_entries_json_compliant _ _ Hselected Hentries) as Hcompliant.
  exists gp_data. rewrite Hdata. unfold rendered. simpl. rewrite Hcompliant. simpl.
  destruct (within_radius w latitude longitude radius) as [|row rows] eqn:Hrows; [done|].
  by split.
Qed.

Lemma finite_in_metres_two_miles : finite_in_metres (F64.of_Z 2).
Proof. vm_compute. reflexivity. Qed.

Lemma town_gps_have_json_columns : json_columns gp_columns Town.gps.
Proof. repeat constructor; eexists; (split; [reflexivity|reflexivity]). Qed.

Lemma gp_within_radius_records_witness :
  exists gp_data,
    run (gp_within_radius (F64.of_Z 0) (F64.of_Z 0) (F64.of_Z 2)) Town.loaded =
      (inr (JSONResponse 200 (VDict [("gp_data", VList gp_data)])), Town.loaded,
       [EvToCrs; EvToCrs; EvBuffer; EvWithin]) /\
    Forall2 gp_entry
      (within_radius Town.loaded (F64.of_Z 0) (F64.of_Z 0) (F64.of_Z 2)) gp_data.
Proof.
  apply (gp_within_radius_records Town.loaded _ _ _ valid_radius_two_miles
           finite_in_metres_two_miles town_gps_have_json_columns).
  discriminate.
Defined.

(** The frame has no column [column]: no row has a cell under it. *)
Definition lacks_column `{GeoLib} (column : string) (gdf : GeoDataFrame) : Prop :=
  Forall (fun row => props row !! column = None) gdf.

(** Reading the seven cells stops at the first column that is not there. *)
Lemma gp_record_first_missing `{GeoLib} (row : Row) (before after : list string)
    (column : string) :
  gp_columns = (before ++ column :: after)%list ->
  Forall (fun c => is_Some (props row !! c)) before ->
  props row !! column = None ->
  gp_record row = inl (KeyError column).
Proof.
  unfold gp_columns, gp_record, getitem. intros Hsplit Hbefore Hnone.
  repeat (destruct before as [|? before];
          [simpl in Hsplit; injection Hsplit as <- <-; by rewrite Hnone|];
          simpl in Hsplit; injection Hsplit as <- Hsplit;
          apply Forall_cons in Hbefore as [[? ->] Hbefore]; simpl).
  by destruct before.
Qed.

(** X6: when the GP frame lacks one of the seven columns the handler
    reads, a valid radius request whose radius is a finite number of
    metres and reaches some row ends in an unhandled [KeyError] naming
    the first column, in reading order, that the frame lacks: no JSON
    response is built. *)
Theorem gp_within_radius_missing_column `{GeoLib}
    (w : world) (latitude longitude radius : float)
    (before after : list string) (column : string) :
  valid_radius_request latitude longitude radius ->
  finite_in_metres radius ->
  within_radius w latitude longitude radius <> [] ->
  gp_columns = (before ++ column :: after)%list ->
  has_columns before (gp_gdf w) ->
  lacks_column column (gp_gdf w) ->
  run (gp_within_radius latitude longitude radius) w =
    (inl (KeyError column), w, [EvToCrs; EvToCrs; EvBuffer; EvWithin]).
Proof.
  intros Hvalid Hfinite Hsome Hsplit Hbefore Hlacks.
  assert (gp_gdf w <> []) as Hgp.
  { intros Hgp. apply Hsome. unfold within_radius. by rewrite Hgp. }
  rewrite (gp_within_radius_run w latitude longitude radius Hvalid Hfinite Hgp).
  destruct (within_radius w latitude longitude radius) as [|row rows] eqn:Hrows; [done|].
  assert (row ∈ to_crs 27700 (gp_gdf w)) as Hrow.
  { assert (row ∈ within_radius w latitude longitude radius) as Hin
      by (rewrite Hrows; left).
    by apply list_elem_of_filter in Hin as [_ Hin]. }
  apply (has_columns_to_crs _ 27700) in Hbefore.
  unfold has_columns in Hbefore. rewrite Forall_forall in Hbefore.
  assert (props row !! column = None) as Hnone.
  { unfold to_crs in Hrow. apply list_elem_of_fmap in Hrow as (row0 & -> & Hrow0).
    unfold lacks_column in Hlacks. rewrite Forall_forall in Hlacks.
    simpl. by apply Hlacks. }
  simpl. by rewrite (gp_record_first_missing row before after column Hsplit (Hbefore row Hrow) Hnone).
Qed.

(** A town whose GP data was recorded without the column "Town". *)
Definition surgery_without_town (g : Plane.shape) (name street postcode : string) : Row :=
  Town.row g
    [("Address_1", VStr name); ("Address_2", VStr street);
     ("Postcode", VStr postcode); ("opening_ho", VStr "8:30am - 6pm");
     ("Saturday", VStr "Closed"); ("Sunday", VStr "Closed")].

Definition incomplete_town : world :=
  mkWorld _
    [surgery_without_town (Plane.Pt 30 0) "Park View Surgery" "28 Millfield Ave" "YO10 3AB";
     surgery_without_town (Plane.Pt 20 0) "Unity Health" "18 Wenlock Terrace" "YO10 4DU"]
    Town.pharmacies Town.bins Town.reserves Town.areas.

Lemma gp_within_radius_missing_column_witness :
  run (gp_within_radius (F64.of_Z 0) (F64.of_Z 0) (F64.of_Z 2)) incomplete_town =
    (inl (KeyError "Town"), incomplete_town, [EvToCrs; EvToCrs; EvBuffer; EvWithin]).
Proof.
  apply (gp_within_radius_missing_column incomplete_town _ _ _
           ["Address_1"; "Address_2"]
           ["Postcode"; "opening_ho"; "Saturday"; "Sunday"] "Town"
           valid_radius_two_miles finite_in_metres_two_miles).
  - discriminate.
  - reflexivity.
  - repeat constructor; by eexists.
  - repeat constructor.
Defined.

(** ** Counts over polygons that do not overlap *)

(** No geometry of [left] is within two rows of [right]. *)
Definition no_shared_point `{GeoLib} (left right : GeoDataFrame) : Prop :=
  forall l i j p q,
    l ∈ left -> right !! i = Some p -> right !! j = Some q ->
    within (geometry l) (geometry p) = true ->
    within (geometry l) (geometry q) = true -> i = j.

Lemma remove_dups_NoDup {A : Type} `{EqDecision A} (l : list A) :
  NoDup l -> remove_dups l = l.
Proof.
  induction 1 as [|x l Hx _ IH]; [reflexivity|].
  simpl. destruct (decide_rel elem_of x l); [done|]. by rewrite IH.
Qed.

Lemma within_labels_none `{GeoLib} (g : geom) (right : GeoDataFrame) (label : nat) :
  (forall j q, right !! j = Some q -> within g (geometry q) = false) ->
  within_labels g right label = [].
Proof.
  revert label. induction right as [|r right IH]; intros label Hnone; [reflexivity|].
  simpl. rewrite (Hnone 0%nat r) by done. apply IH.
  intros j q Hq. by apply (Hnone (S j)).
Qed.

Lemma within_labels_at_most_one `{GeoLib} (g : geom) (right : GeoDataFrame) (label : nat) :
  (forall i j p q, right !! i = Some p -> right !! j = Some q ->
     within g (geometry p) = true -> within g (geometry q) = true -> i = j) ->
  (length (within_labels g right label) <= 1)%nat.
Proof.
  revert label. induction right as [|r right IH]; intros label Hone; simpl; [lia|].
  destruct (within g (geometry r)) eqn:Hr.
  - rewrite within_labels_none; [simpl; lia|].
    intros j q Hq. destruct (within g (geometry q)) eqn:Hwq; [|done].
    by specialize (Hone 0%nat (S j) r q eq_refl Hq Hr Hwq).
  - apply IH. intros i j p q Hp Hq Hwp Hwq.
    specialize (Hone (S i) (S j) p q Hp Hq Hwp Hwq). lia.
Qed.

Lemma sjoin_from_left_labels `{GeoLib} (left right : GeoDataFrame) (label k : nat) :
  k ∈ (sjoin_from label left right).*1 -> (label <= k)%nat.
Proof.
  revert label. induction left as [|l left IH]; intros label; simpl.
  - intros Hk. by apply not_elem_of_nil in Hk.
  - rewrite fmap_app, elem_of_app. intros [Hk|Hk].
    + rewrite <- list_fmap_compose in Hk. apply list_elem_of_fmap in Hk as (j & -> & _).
      simpl. lia.
    + apply IH in Hk. lia.
Qed.

Lemma sjoin_from_NoDup `{GeoLib} (left right : GeoDataFrame) (label : nat) :
  no_shared_point left right ->
  NoDup (sjoin_from label left right).*1 /\
  (length (sjoin_from label left right) <= length left)%nat.
Proof.
  revert label. induction left as [|l left IH]; intros label Hdisjoint.
  { split; [constructor|simpl; lia]. }
  assert (length (within_labels (geometry l) right 0) <= 1)%nat as Hone.
  { apply within_labels_at_most_one. intros i j p q. apply Hdisjoint. left. }
  destruct (IH (S label)) as [Hnodup Hlength].
  { intros l' i j p q Hl'. apply Hdisjoint. by right. }
  simpl. rewrite fmap_app, length_app, length_fmap. split; [|lia].
  apply NoDup_app. split; [|split; [|exact Hnodup]].
  - destruct (within_labels (geometry l) right 0) as [|a [|b labels]];
      simpl in *; [constructor|apply NoDup_singleton|lia].
  - intros k Hk Hk'. apply sjoin_from_left_labels in Hk'.
    rewrite <- list_fmap_compose in Hk. apply list_elem_of_fmap in Hk as (j & -> & _).
    simpl in Hk'. lia.
Qed.

(** The cells that [find_bins] leaves in the column "bin_count" of a
    polygon frame, in frame order. *)
Definition stored_bin_counts `{GeoLib} (gdf : GeoDataFrame) : list (option value) :=
  (fun row => props row !! "bin_count") <$> gdf.

Lemma stored_bin_counts_counted `{GeoLib} (bins polygons : GeoDataFrame) :
  stored_bin_counts (counted bins <$> polygons) =
  (fun n : nat => Some (VInt (Z.of_nat n))) <$> (bins_within bins <$> polygons).
Proof.
  unfold stored_bin_counts. rewrite <- !list_fmap_compose.
  apply list_fmap_ext. intros i polygon _. simpl. apply lookup_insert_eq.
Qed.

Lemma disjoint_polygons_sum `{GeoLib} (bins polygons : GeoDataFrame) :
  no_shared_point bins polygons ->
  sum_list (bins_within bins <$> polygons) = matched_points (sjoin_within bins polygons) /\
  (sum_list (bins_within bins <$> polygons) <= length bins)%nat.
Proof.
  intros Hdisjoint. unfold matched_points, sjoin_within.
  destruct (sjoin_from_NoDup bins polygons 0 Hdisjoint) as [Hnodup Hlength].
  rewrite (remove_dups_NoDup _ Hnodup), length_fmap.
  rewrite (sum_bins_within bins polygons 0). by split.
Qed.

(** X7: when no bin lies within two nature reserves, nor within two
    conservation areas, the integers that a run of
    /bins-in-nature-areas on three nonempty frames stores in the column
    "bin_count" of each polygon frame add up to the number of bins the
    join of that frame matched: each matched bin is counted once, so the
    sum is at most the number of bins. *)
Theorem disjoint_polygons_count_each_bin_once `{GeoLib} (w : world) :
  bins_gdf w <> [] -> nature_reserves_gdf w <> [] -> conservation_areas_gdf w <> [] ->
  no_shared_point (bins_gdf w) (nature_reserves_gdf w) ->
  no_shared_point (bins_gdf w) (conservation_areas_gdf w) ->
  exists reserve_counts area_counts : list nat,
    stored_bin_counts (nature_reserves_gdf (run find_bins w).1.2) =
      (fun n : nat => Some (VInt (Z.of_nat n))) <$> reserve_counts /\
    stored_bin_counts (conservation_areas_gdf (run find_bins w).1.2) =
      (fun n : nat => Some (VInt (Z.of_nat n))) <$> area_counts /\
    sum_list reserve_counts =
      matched_points (sjoin_within (bins_gdf w) (nature_reserves_gdf w)) /\
    sum_list area_counts =
      matched_points (sjoin_within (bins_gdf w) (conservation_areas_gdf w)) /\
    (sum_list reserve_counts <= length (bins_gdf w))%nat /\
    (sum_list area_counts <= length (bins_gdf w))%nat.
Proof.
  intros Hbins Hnature Hareas Hreserves_apart Hareas_apart.
  exists (bins_within (bins_gdf w) <$> nature_reserves_gdf w),
         (bins_within (bins_gdf w) <$> conservation_areas_gdf w).
  rewrite (find_bins_run w Hbins Hnature Hareas). simpl.
  destruct (disjoint_polygons_sum _ _ Hreserves_apart) as [Hsum Hle].
  destruct (disjoint_polygons_sum _ _ Hareas_apart) as [Hsum' Hle'].
  repeat split; try done; apply stored_bin_counts_counted.
Qed.

(** The town with reserves and conservation areas that lie apart: the
    first reserve holds two bins, the second none, the third one. *)
Definition town_apart : world :=
  mkWorld _ Town.gps Town.pharmacies Town.bins
    [Town.reserve (Plane.Rect 0 0 4 4) "St Nicholas Fields";
     Town.reserve (Plane.Rect 50 50 60 60) "Acomb Wood";
     Town.reserve (Plane.Rect 90 90 110 110) "Hob Moor"]
    [Town.row (Plane.Rect 0 0 10 10) [("Name", VStr "Heslington")];
     Town.row (Plane.Rect 95 95 105 105) [("Name", VStr "Fulford")]].

Ltac rows_apart :=
  let l := fresh "l" in
  let i := fresh "i" in
  let j := fresh "j" in
  let Hl := fresh "Hl" in
  let Hp := fresh "Hp" in
  let Hq := fresh "Hq" in
  let Hwp := fresh "Hwp" in
  let Hwq := fresh "Hwq" in
  intros l i j ? ? Hl Hp Hq Hwp Hwq;
  destruct i as [|[|[|i]]]; simpl in Hp; try discriminate Hp; injection Hp as <-;
  destruct j as [|[|[|j]]]; simpl in Hq; try discriminate Hq; injection Hq as <-;
  try reflexivity;
  repeat (apply elem_of_cons in Hl as [->|Hl]);
  try (by apply not_elem_of_nil in Hl);
  vm_compute in Hwp, Hwq; discriminate.

Lemma town_apart_reserves : no_shared_point Town.bins (nature_reserves_gdf town_apart).
Proof. rows_apart. Qed.

Lemma town_apart_areas : no_shared_point Town.bins (conservation_areas_gdf town_apart).
Proof. rows_apart. Qed.

Lemma disjoint_polygons_count_each_bin_once_witness :
  exists reserve_counts area_counts : list nat,
    stored_bin_counts (nature_reserves_gdf (run find_bins town_apart).1.2) =
      (fun n : nat => Some (VInt (Z.of_nat n))) <$> reserve_counts /\
    stored_bin_counts (conservation_areas_gdf (run find_bins town_apart).1.2) =
      (fun n : nat => Some (VInt (Z.of_nat n))) <$> area_counts /\
    sum_list reserve_counts =
      matched_points (sjoin_within (bins_gdf town_apart) (nature_reserves_gdf town_apart)) /\
    sum_list area_counts =
      matched_points (sjoin_within (bins_gdf town_apart)
                                   (conservation_areas_gdf town_apart)) /\
    (sum_list reserve_counts <= length (bins_gdf town_apart))%nat /\
    (sum_list area_counts <= length (bins_gdf town_apart))%nat.
Proof.
  apply (disjoint_polygons_count_each_bin_once town_apart); try discriminate.
  - exact town_apart_reserves.
  - exact town_apart_areas.
Defined.

(** In that town the stored counts are 2, 0, 1 and 2, 1; both joins
    matched all three bins. *)
Example counts_in_town_apart :
  stored_bin_counts (nature_reserves_gdf (run find_bins town_apart).1.2) =
    [Some (VInt 2); Some (VInt 0); Some (VInt 1)] /\
  stored_bin_counts (conservation_areas_gdf (run find_bins town_apart).1.2) =
    [Some (VInt 2); Some (VInt 1)] /\
  matched_points (sjoin_within (bins_gdf town_apart) (nature_reserves_gdf town_apart))
    = 3%nat.
Proof. repeat split; reflexivity. Qed.

(** ** The stored bin counts *)

Lemma bins_within_zero `{GeoLib} (bins : GeoDataFrame) (polygon : Row) :
  bins_within bins polygon = 0%nat <->
  forall b, b ∈ bins -> within (geometry b) (geometry polygon) = false.
Proof.
  unfold bins_within. induction bins as [|b bins IH].
  - split; [|done]. intros _ b Hb. by apply not_elem_of_nil in Hb.
  - rewrite filter_cons. destruct (within (geometry b) (geometry polygon)) eqn:Hb.
    + rewrite decide_True by done. split; [done|].
      intros Hnone. specialize (Hnone b). rewrite Hb in Hnone.
      discriminate Hnone. left.
    + rewrite decide_False by (by intros [=]). rewrite IH. split.
      * intros Hnone b' Hb'. apply elem_of_cons in Hb' as [->|Hb']; auto.
      * intros Hnone b' Hb'. apply Hnone. by right.
Qed.

(** The cell that [find_bins] leaves in the column "bin_count" of row
    [i] of a polygon frame. *)
Definition stored_bin_count `{GeoLib} (gdf : GeoDataFrame) (i : nat) : option value :=
  gdf !! i ≫= fun row => props row !! "bin_count".

(** X8: after a run of /bins-in-nature-areas on three nonempty frames,
    every nature reserve and every conservation area holds in the column
    "bin_count" of the global frame an integer between 0 and the number
    of bins, which is 0 exactly when no bin is within the polygon. *)
Theorem find_bins_stores_bounded_counts `{GeoLib} (w : world) (i : nat) (polygon : Row) :
  bins_gdf w <> [] -> nature_reserves_gdf w <> [] -> conservation_areas_gdf w <> [] ->
  nature_reserves_gdf w !! i = Some polygon \/
  conservation_areas_gdf w !! i = Some polygon ->
  exists n : nat,
    (nature_reserves_gdf w !! i = Some polygon ->
     stored_bin_count (nature_reserves_gdf (run find_bins w).1.2) i
       = Some (VInt (Z.of_nat n))) /\
    (conservation_areas_gdf w !! i = Some polygon ->
     stored_bin_count (conservation_areas_gdf (run find_bins w).1.2) i
       = Some (VInt (Z.of_nat n))) /\
    (n <= length (bins_gdf w))%nat /\
    (n = 0%nat <->
     forall b, b ∈ bins_gdf w -> within (geometry b) (geometry polygon) = false).
Proof.
  intros Hbins Hnature Hareas _. exists (bins_within (bins_gdf w) polygon).
  rewrite (find_bins_run w Hbins Hnature Hareas). simpl.
  unfold stored_bin_count. repeat split.
  - intros Hrow. rewrite list_lookup_fmap, Hrow. simpl. apply lookup_insert_eq.
  - intros Hrow. rewrite list_lookup_fmap, Hrow. simpl. apply lookup_insert_eq.
  - apply length_filter.
  - by apply bins_within_zero.
  - by apply bins_within_zero.
Qed.

Lemma find_bins_stores_bounded_counts_witness :
  exists n : nat,
    (nature_reserves_gdf Town.loaded !! 2%nat
       = Some (Town.reserve (Plane.Rect 50 50 60 60) "Acomb Wood") ->
     stored_bin_count (nature_reserves_gdf (run find_bins Town.loaded).1.2) 2
       = Some (VInt (Z.of_nat n))) /\
    (conservation_areas_gdf Town.loaded !! 2%nat
       = Some (Town.reserve (Plane.Rect 50 50 60 60) "Acomb Wood") ->
     stored_bin_count (conservation_areas_gdf (run find_bins Town.loaded).1.2) 2
       = Some (VInt (Z.of_nat n))) /\
    (n <= length (bins_gdf Town.loaded))%nat /\
    (n = 0%nat <->
     forall b, b ∈ bins_gdf Town.loaded ->
       within (geometry b)
              (geometry (Town.reserve (Plane.Rect 50 50 60 60) "Acomb Wood")) = false).
Proof.
  apply (find_bins_stores_bounded_counts Town.loaded 2
           (Town.reserve (Plane.Rect 50 50 60 60) "Acomb Wood"));
    try discriminate.
  left. reflexivity.
Defined.

(** ** The upload endpoint, further *)

(** X9: an upload whose file name does not end in ".geojson" is answered
    400 "Uploaded file must be a valid GeoJSON file." whatever its content
    and size: the content is neither read nor parsed. *)
Theorem upload_wrong_extension `{GeoLib} `{JsonLib} (file : UploadFile) (w : world) :
  endswith (filename file) ".geojson" = false ->
  run (upload_geojson file) w =
    (inr (JSONResponse 400 (error_body "Uploaded file must be a valid GeoJSON file.")),
     w,
     [EvLog WARNING "Uploaded file is not of type GeoJSON";
      EvLog ERROR "Unexpected error: Uploaded file must be a valid GeoJSON file."]).
Proof.
  intros Hext. unfold upload_geojson, try_except. rewrite Hext. reflexivity.
Qed.

Lemma upload_wrong_extension_witness :
  run (upload_geojson
         (mkUploadFile "collection.json" "application/json"
                       (String.list_byte_of_string Documents.empty_collection)))
      Town.loaded =
    (inr (JSONResponse 400 (error_body "Uploaded file must be a valid GeoJSON file.")),
     Town.loaded,
     [EvLog WARNING "Uploaded file is not of type GeoJSON";
      EvLog ERROR "Unexpected error: Uploaded file must be a valid GeoJSON file."]).
Proof.
  apply (upload_wrong_extension
           (mkUploadFile "collection.json" "application/json"
                         (String.list_byte_of_string Documents.empty_collection))
           Town.loaded).
  reflexivity.
Defined.



Lemma subscript_contains (container : value) (key : string) (v : value) :
  subscript container key = inr v ->
  contains container key = inr true /\ exists d, container = VDict d.
Proof.
  destruct container as [| | | | |l|d]; try done. simpl.
  destruct (list_find _ d) as [[i kv]|] eqn:Hfind; [|done]. intros _.
  split; [|by exists d]. f_equal.
  apply list_find_Some in Hfind as (Hkv & Hkey & _).
  apply existsb_exists. exists kv.1. split.
  - apply list_elem_of_In, list_elem_of_fmap. exists kv. split; [done|].
    by apply list_elem_of_lookup_2 in Hkv.
  - rewrite Hkey. apply String.eqb_refl.
Qed.







(** An uploaded survey of three features: two points and a polygon, the
    points sharing the property "name".  [json.loads] recognises the
    text of the survey, with any white space behind it. *)
Module Survey.
Definition q (s : string) : string := Documents.dq ++ s ++ Documents.dq.

Definition feature_text (tag coordinates properties : string) : string :=
  "{" ++ q "type" ++ ": " ++ q "Feature" ++ ", " ++
  q "geometry" ++ ": {" ++ q "type" ++ ": " ++ q tag ++ ", " ++
  q "coordinates" ++ ": " ++ coordinates ++ "}, " ++
  q "properties" ++ ": {" ++ properties ++ "}}".

Definition text : string :=
  "{" ++ q "type" ++ ": " ++ q "FeatureCollection" ++ ", " ++
  q "features" ++ ": [" ++
  feature_text "Point" "[1, 2]" (q "name" ++ ": " ++ q "Well") ++ ", " ++
  feature_text "Point" "[3, 4]"
    (q "name" ++ ": " ++ q "Cross" ++ ", " ++ q "listed" ++ ": true") ++ ", " ++
  feature_text "Polygon" "[[[0, 0], [4, 0], [4, 4], [0, 0]]]"
    (q "ward" ++ ": " ++ q "Guildhall") ++ "]}".

Definition position (x y : Z) : value := VList [VInt x; VInt y].

Definition feature (tag : string) (coordinates : value)
    (properties : list (string * value)) : value :=
  VDict [("type", VStr "Feature");
         ("geometry", VDict [("type", VStr tag); ("coordinates", coordinates)]);
         ("properties", VDict properties)].

Definition features : list value := [
  feature "Point" (position 1 2) [("name", VStr "Well")];
  feature "Point" (position 3 4) [("name", VStr "Cross"); ("listed", VBool true)];
  feature "Polygon"
    (VList [VList [position 0 0; position 4 0; position 4 4; position 0 0]])
    [("ward", VStr "Guildhall")]
].

Definition document : value :=
  VDict [("type", VStr "FeatureCollection"); ("features", VList features)].

Definition loads (content : list byte) : exn + value :=
  Documents.find_document [(text, inr document)] content.

Definition json : JsonLib := {| json_loads := loads |}.

Definition upload : UploadFile :=
  geojson_upload (String.list_byte_of_string text).
End Survey.



(** ** The answer of the nearest-facility search *)

Definition pharmacy_columns : list string :=
  ["PharmacyName"; "PharmacyAddress1"; "PharmacyAddress2"; "PharmacyAddress3";
   "Postcode"].

(** Every geometry of the frame is a point. *)
Definition points `{GeoLib} (gdf : GeoDataFrame) : Prop :=
  Forall (fun row => is_Some (geom_xy (geometry row))) gdf.

(** The "nearest_gp" object of the response: the cells of the row under
    the response's keys, and [d] as its distance. *)
Definition nearest_gp_entry `{GeoLib} (row : Row) (d : float) (record : value) : Prop :=
  exists address1 address2 town postcode mondayToFriday saturday sunday,
    props row !! "Address_1" = Some address1 /\
    props row !! "Address_2" = Some address2 /\
    props row !! "Town" = Some town /\
    props row !! "Postcode" = Some postcode /\
    props row !! "opening_ho" = Some mondayToFriday /\
    props row !! "Saturday" = Some saturday /\
    props row !! "Sunday" = Some sunday /\
    record = VDict [
      ("name", address1);
      ("address", VDict [
         ("address1", address1); ("address2", address2);
         ("town", town); ("postcode", postcode)]);
      ("opening_hours", VDict [
         ("mondayToFriday", mondayToFriday);
         ("saturday", saturday); ("sunday", sunday)]);
      ("distance_meters", VFloat d)].

(** The "nearest_pharmacy_from_gp" object of the response. *)
Definition nearest_pharmacy_entry `{GeoLib} (row : Row) (d : float)
    (record : value) : Prop :=
  exists pharmacyName address1 address2 address3 postcode,
    props row !! "PharmacyName" = Some pharmacyName /\
    props row !! "PharmacyAddress1" = Some address1 /\
    props row !! "PharmacyAddress2" = Some address2 /\
    props row !! "PharmacyAddress3" = Some address3 /\
    props row !! "Postcode" = Some postcode /\
    record = VDict [
      ("pharmacyName", pharmacyName);
      ("address", VDict [
         ("address1", address1); ("address2", address2);
         ("address3", address3); ("postcode", postcode)]);
      ("distanceInMetres", VFloat d)].

Lemma getitem_with_distance `{GeoLib} (row : Row) (pt : geom) (column : string) (v : value) :
  column <> "distance" ->
  props row !! column = Some v ->
  getitem (with_distance row pt) column = inr v.
Proof.
  intros Hne Hv. unfold getitem, with_distance. simpl.
  by rewrite lookup_insert_ne, Hv.
Qed.

Lemma getitem_with_distance_distance `{GeoLib} (row : Row) (pt : geom) :
  getitem (with_distance row pt) "distance" = inr (VFloat (distance (geometry row) pt)).
Proof. unfold getitem, with_distance. simpl. by rewrite lookup_insert. Qed.

Lemma json_response_of_with_distance `{GeoLib} (gp_row pharmacy_row : Row) (p q : geom) :
  Forall (fun c => is_Some (props gp_row !! c)) gp_columns ->
  Forall (fun c => is_Some (props pharmacy_row !! c)) pharmacy_columns ->
  exists nearest_gp nearest_pharmacy,
    json_response_of (with_distance gp_row p) (with_distance pharmacy_row q) =
      inr (VDict [("nearest_gp", nearest_gp);
                  ("nearest_pharmacy_from_gp", nearest_pharmacy)]) /\
    nearest_gp_entry gp_row (distance (geometry gp_row) p) nearest_gp /\
    nearest_pharmacy_entry pharmacy_row (distance (geometry pharmacy_row) q)
                           nearest_pharmacy.
Proof.
  intros Hgp Hpharmacy.
  apply Forall_cons in Hgp as [[address1 H1] Hgp].
  apply Forall_cons in Hgp as [[address2 H2] Hgp].
  apply Forall_cons in Hgp as [[town H3] Hgp].
  apply Forall_cons in Hgp as [[postcode H4] Hgp].
  apply Forall_cons in Hgp as [[mondayToFriday H5] Hgp].
  apply Forall_cons in Hgp as [[saturday H6] Hgp].
  apply Forall_cons in Hgp as [[sunday H7] _].
  apply Forall_cons in Hpharmacy as [[pharmacyName P1] Hpharmacy].
  apply Forall_cons in Hpharmacy as [[p_address1 P2] Hpharmacy].
  apply Forall_cons in Hpharmacy as [[p_address2 P3] Hpharmacy].
  apply Forall_cons in Hpharmacy as [[p_address3 P4] Hpharmacy].
  apply Forall_cons in Hpharmacy as [[p_postcode P5] _].
  unfold json_response_of.
  rewrite (getitem_with_distance gp_row p "Address_1" address1) by done.
  rewrite (getitem_with_distance gp_row p "Address_2" address2) by done.
  rewrite (getitem_with_distance gp_row p "Town" town) by done.
  rewrite (getitem_with_distance gp_row p "Postcode" postcode) by done.
  rewrite (getitem_with_distance gp_row p "opening_ho" mondayToFriday) by done.
  rewrite (getitem_with_distance gp_row p "Saturday" saturday) by done.
  rewrite (getitem_with_distance gp_row p "Sunday" sunday) by done.
  rewrite (getitem_with_distance pharmacy_row q "PharmacyName" pharmacyName) by done.
  rewrite (getitem_with_distance pharmacy_row q "PharmacyAddress1" p_address1) by done.
  rewrite (getitem_with_distance pharmacy_row q "PharmacyAddress2" p_address2) by done.
  rewrite (getitem_with_distance pharmacy_row q "PharmacyAddress3" p_address3) by done.
  rewrite (getitem_with_distance pharmacy_row q "Postcode" p_postcode) by done.
  rewrite !getitem_with_distance_distance. simpl.
  eexists _, _. split; [reflexivity|]. split.
  - by eexists _, _, _, _, _, _, _.
  - by eexists _, _, _, _, _.
Qed.

(** The distance of every row of the frame to [pt] is a finite number. *)
Definition finite_distances `{GeoLib} (gdf : GeoDataFrame) (pt : geom) : Prop :=
  Forall (fun row => F64.is_finite (distance (geometry row) pt) = true) gdf.

Lemma nearest_gp_entry_json_compliant `{GeoLib} (row : Row) (d : float) (record : value) :
  Forall (fun c => exists v, props row !! c = Some v /\ json_compliant v = true)
         gp_columns ->
  F64.is_finite d = true ->
  nearest_gp_entry row d record -> json_compliant record = true.
Proof.
  intros Hcells Hd
    (a1 & a2 & t & p & o & sa & su & H1 & H2 & H3 & H4 & H5 & H6 & H7 & ->).
  apply Forall_cons in Hcells as [(v1 & E1 & C1) Hcells].
  apply Forall_cons in Hcells as [(v2 & E2 & C2) Hcells].
  apply Forall_cons in Hcells as [(v3 & E3 & C3) Hcells].
  apply Forall_cons in Hcells as [(v4 & E4 & C4) Hcells].
  apply Forall_cons in Hcells as [(v5 & E5 & C5) Hcells].
  apply Forall_cons in Hcells as [(v6 & E6 & C6) Hcells].
  apply Forall_cons in Hcells as [(v7 & E7 & C7) _].
  rewrite H1 in E1. rewrite H2 in E2. rewrite H3 in E3. rewrite H4 in E4.
  rewrite H5 in E5. rewrite H6 in E6. rewrite H7 in E7.
  injection E1 as ->. injection E2 as ->. injection E3 as ->. injection E4 as ->.
  injection E5 as ->. injection E6 as ->. injection E7 as ->.
  simpl. by rewrite C1, C2, C3, C4, C5, C6, C7, Hd.
Qed.

Lemma nearest_pharmacy_entry_json_compliant `{GeoLib} (row : Row) (d : float)
    (record : value) :
  Forall (fun c => exists v, props row !! c = Some v /\ json_compliant v = true)
         pharmacy_columns ->
  F64.is_finite d = true ->
  nearest_pharmacy_entry row d record -> json_compliant record = true.
Proof.
  intros Hcells Hd (n & a1 & a2 & a3 & p & H1 & H2 & H3 & H4 & H5 & ->).
  apply Forall_cons in Hcells as [(v1 & E1 & C1) Hcells].
  apply Forall_cons in Hcells as [(v2 & E2 & C2) Hcells].
  apply Forall_cons in Hcells as [(v3 & E3 & C3) Hcells].
  apply Forall_cons in Hcells as [(v4 & E4 & C4) Hcells].
  apply Forall_cons in Hcells as [(v5 & E5 & C5) _].
  rewrite H1 in E1. rewrite H2 in E2. rewrite H3 in E3. rewrite H4 in E4.
  rewrite H5 in E5.
  injection E1 as ->. injection E2 as ->. injection E3 as ->. injection E4 as ->.
  injection E5 as ->.
  simpl. by rewrite C1, C2, C3, C4, C5, Hd.
Qed.

(** X11: for valid coordinates, when both frames are nonempty, every GP
    row is a point with the seven columns read and every pharmacy row has
    the five columns read, all these cells are JSON compliant and the
    distances computed are finite numbers, the request is answered 200
    after three reprojections and two distance computations, with a JSON
    compliant body; the GP reported is the first nearest to the query
    point and its "distance_meters" is its distance to that point; the
    pharmacy reported is the first nearest to the point of that GP and
    its "distanceInMetres" is its distance to the GP, not to the query
    point.  A column "distance" of the data is overwritten by the
    computed one. *)
Theorem nearest_gp_pharmacy_answer `{GeoLib}
    (w : world) (latitude longitude : float) :
  valid_coordinates latitude longitude ->
  gp_gdf w <> [] -> pharmacy_gdf w <> [] ->
  json_columns gp_columns (gp_gdf w) ->
  points (to_crs 27700 (gp_gdf w)) ->
  json_columns pharmacy_columns (pharmacy_gdf w) ->
  finite_distances (to_crs 27700 (gp_gdf w))
                   (crs_transform 27700 (Point longitude latitude)) ->
  (forall gp_row x y,
     gp_row ∈ to_crs 27700 (gp_gdf w) ->
     geom_xy (geometry gp_row) = Some (x, y) ->
     finite_distances (to_crs 27700 (pharmacy_gdf w)) (Point x y)) ->
  exists i gp_row x y j pharmacy_row nearest_gp nearest_pharmacy,
    first_nearest (to_crs 27700 (gp_gdf w))
                  (crs_transform 27700 (Point longitude latitude)) i gp_row /\
    geom_xy (geometry gp_row) = Some (x, y) /\
    first_nearest (to_crs 27700 (pharmacy_gdf w)) (Point x y) j pharmacy_row /\
    run (nearest_gp_pharmacy latitude longitude) w =
      (inr (JSONResponse 200 (VDict [
         ("nearest_gp", nearest_gp);
         ("nearest_pharmacy_from_gp", nearest_pharmacy)])),
       w, [EvToCrs; EvToCrs; EvToCrs; EvDistance; EvDistance]) /\
    nearest_gp_entry gp_row
      (distance (geometry gp_row) (crs_transform 27700 (Point longitude latitude)))
      nearest_gp /\
    nearest_pharmacy_entry pharmacy_row
      (distance (geometry pharmacy_row) (Point x y)) nearest_pharmacy /\
    json_compliant (VDict [
      ("nearest_gp", nearest_gp);
      ("nearest_pharmacy_from_gp", nearest_pharmacy)]) = true.
Proof.
  intros Hvalid Hgp Hpharmacy Hgp_cols Hpoints Hpharmacy_cols Hgp_finite Hpharmacy_finite.
  rewrite (nearest_gp_pharmacy_run w latitude longitude Hvalid Hgp Hpharmacy).
  destruct (nearest_facility_spec (to_crs 27700 (gp_gdf w))
              (crs_transform 27700 (Point longitude latitude)))
    as (i & gp_row & Hnearest & ->).
  { unfold to_crs. by destruct (gp_gdf w). }
  assert (to_crs 27700 (gp_gdf w) !! i = Some gp_row) as Hi by apply Hnearest.
  apply list_elem_of_lookup_2 in Hi.
  destruct (proj1 (Forall_forall _ _) Hpoints gp_row Hi) as [[x y] Hxy].
  unfold geometry_xy. simpl. rewrite Hxy. simpl.
  destruct (nearest_facility_spec (to_crs 27700 (pharmacy_gdf w)) (Point x y))
    as (j & pharmacy_row & Hnearest' & ->).
  { unfold to_crs. by destruct (pharmacy_gdf w). }
  assert (to_crs 27700 (pharmacy_gdf w) !! j = Some pharmacy_row) as Hj
    by apply Hnearest'.
  apply list_elem_of_lookup_2 in Hj.
  apply (json_columns_to_crs _ 27700) in Hgp_cols, Hpharmacy_cols.
  pose proof (proj1 (Forall_forall _ _) Hgp_cols gp_row Hi) as Hgp_cells.
  pose proof (proj1 (Forall_forall _ _) Hpharmacy_cols pharmacy_row Hj) as Hpharmacy_cells.
  pose proof (proj1 (Forall_forall _ _) Hgp_finite gp_row Hi) as Hd.
  pose proof (proj1 (Forall_forall _ _) (Hpharmacy_finite gp_row x y Hi Hxy)
                pharmacy_row Hj) as Hd'.
  destruct (json_response_of_with_distance gp_row pharmacy_row
              (crs_transform 27700 (Point longitude latitude)) (Point x y))
    as (nearest_gp & nearest_pharmacy & -> & Hgp_entry & Hpharmacy_entry).
  { eapply Forall_impl; [exact Hgp_cells|]. intros c (v & Hv & _). by exists v. }
  { eapply Forall_impl; [exact Hpharmacy_cells|]. intros c (v & Hv & _). by exists v. }
  exists i, gp_row, x, y, j, pharmacy_row, nearest_gp, nearest_pharmacy.
  repeat split; try done; try apply Hnearest; try apply Hnearest'.
  change (json_compliant nearest_gp && (json_compliant nearest_pharmacy && true) = true).
  by rewrite (nearest_gp_entry_json_compliant _ _ _ Hgp_cells Hd Hgp_entry),
             (nearest_pharmacy_entry_json_compliant _ _ _ Hpharmacy_cells Hd'
                Hpharmacy_entry).
Qed.

Lemma town_pharmacies_have_json_columns : json_columns pharmacy_columns Town.pharmacies.
Proof. repeat constructor; eexists; (split; [reflexivity|reflexivity]). Qed.

Lemma town_gps_are_points : points (to_crs 27700 Town.gps).
Proof. repeat constructor; by eexists. Qed.

Lemma town_gp_distances_finite :
  finite_distances (to_crs 27700 Town.gps)
                   (crs_transform 27700 (Point (F64.of_Z 0) (F64.of_Z 0))).
Proof. repeat constructor; vm_compute; reflexivity. Qed.

Lemma town_pharmacy_distances_finite (gp_row : Row) (x y : float) :
  gp_row ∈ to_crs 27700 Town.gps ->
  geom_xy (geometry gp_row) = Some (x, y) ->
  finite_distances (to_crs 27700 Town.pharmacies) (Point x y).
Proof.
  intros Hrow Hxy.
  repeat (apply elem_of_cons in Hrow as [->|Hrow]);
    [..|by apply not_elem_of_nil in Hrow];
    injection Hxy as <- <-; repeat constructor; vm_compute; reflexivity.
Qed.

Lemma nearest_gp_pharmacy_answer_witness :
  exists i gp_row x y j pharmacy_row nearest_gp nearest_pharmacy,
    first_nearest (to_crs 27700 (gp_gdf Town.loaded))
                  (crs_transform 27700 (Point (F64.of_Z 0) (F64.of_Z 0))) i gp_row /\
    geom_xy (geometry gp_row) = Some (x, y) /\
    first_nearest (to_crs 27700 (pharmacy_gdf Town.loaded)) (Point x y) j pharmacy_row /\
    run (nearest_gp_pharmacy (F64.of_Z 0) (F64.of_Z 0)) Town.loaded =
      (inr (JSONResponse 200 (VDict [
         ("nearest_gp", nearest_gp);
         ("nearest_pharmacy_from_gp", nearest_pharmacy)])),
       Town.loaded, [EvToCrs; EvToCrs; EvToCrs; EvDistance; EvDistance]) /\
    nearest_gp_entry gp_row
      (distance (geometry gp_row) (crs_transform 27700 (Point (F64.of_Z 0) (F64.of_Z 0))))
      nearest_gp /\
    nearest_pharmacy_entry pharmacy_row
      (distance (geometry pharmacy_row) (Point x y)) nearest_pharmacy /\
    json_compliant (VDict [
      ("nearest_gp", nearest_gp);
      ("nearest_pharmacy_from_gp", nearest_pharmacy)]) = true.
Proof.
  apply (nearest_gp_pharmacy_answer Town.loaded (F64.of_Z 0) (F64.of_Z 0)).
  - exact valid_coordinates_origin.
  - discriminate.
  - discriminate.
  - exact town_gps_have_json_columns.
  - exact town_gps_are_points.
  - exact town_pharmacies_have_json_columns.
  - exact town_gp_distances_finite.
  - exact town_pharmacy_distances_finite.
Defined.

(** ** Uploads the summary cannot be built from *)

(** The dict and list operations raise [KeyError], [TypeError] or
    [AttributeError], never [ValueError]. *)
Lemma subscript_not_ValueError (container : value) (key : string) (e : exn) :
  subscript container key = inl e -> is_ValueError e = false.
Proof.
  destruct container as [| | | | |l|d]; simpl; try by intros [= <-].
  destruct (list_find _ d) as [[i kv]|]; [done|]. by intros [= <-].
Qed.

Lemma keys_not_ValueError (d : value) (e : exn) :
  keys d = inl e -> is_ValueError e = false.
Proof. destruct d; simpl; try done; by intros [= <-]. Qed.

Lemma set_add_not_ValueError (s : list value) (v : value) (e : exn) :
  set_add s v = inl e -> is_ValueError e = false.
Proof. destruct v; simpl; try done; by intros [= <-]. Qed.

(** A loop whose body fails on some item, whatever it has accumulated,
    fails. *)
Lemma foldE_fails {A B : Type} (f : A -> B -> exn + A) (l : list B) (x : B) :
  x ∈ l ->
  (forall a, exists e, f a x = inl e) ->
  forall a, exists e, foldE f a l = inl e.
Proof.
  intros Hx Hfails. induction l as [|y l IH]; intros a.
  - by apply not_elem_of_nil in Hx.
  - simpl. destruct (f a y) as [e|a'] eqn:Hy; [by exists e|].
    apply elem_of_cons in Hx as [->|Hx]; [|by apply IH].
    destruct (Hfails a) as [e He]. congruence.
Qed.

(** The exception of a failed loop is one of its body. *)
Lemma foldE_error {A B : Type} (f : A -> B -> exn + A) (P : exn -> Prop) (l : list B) :
  (forall a y e, f a y = inl e -> P e) ->
  forall a e, foldE f a l = inl e -> P e.
Proof.
  intros HP. induction l as [|y l IH]; intros a e; simpl; [done|].
  destruct (f a y) as [e'|a'] eqn:Hy; [|apply IH].
  intros [= <-]. by apply (HP a y).
Qed.

(** A feature the summary cannot read: it has no dict under "properties",
    or no geometry with a "type". *)
Definition incomplete_feature (feature : value) : Prop :=
  (forall properties, subscript feature "properties" <> inr (VDict properties)) \/
  (forall geometry tag,
     subscript feature "geometry" = inr geometry ->
     subscript geometry "type" <> inr tag).

Lemma summary_of_incomplete (geojson_data : value) (features : list value)
    (feature : value) :
  subscript geojson_data "features" = inr (VList features) ->
  feature ∈ features ->
  incomplete_feature feature ->
  exists e, summary_of geojson_data = inl e /\ is_ValueError e = false.
Proof.
  intros Hfeatures Hin Hincomplete.
  destruct (subscript_contains _ _ _ Hfeatures) as [_ [d ->]].
  unfold summary_of. rewrite Hfeatures. simpl.
  match goal with |- context [foldE ?f ∅ features] => set (columns_of := f) end.
  match goal with |- context [foldE ?f [] features] => set (types_of := f) end.
  assert (forall a y e, columns_of a y = inl e -> is_ValueError e = false) as Hcolumns_error.
  { intros a y e. unfold columns_of.
    destruct (subscript y "properties") as [e'|v] eqn:Hsub; simpl.
    - intros [= <-]. by apply subscript_not_ValueError in Hsub.
    - destruct (keys v) as [e'|ks] eqn:Hkeys; simpl; [|done].
      intros [= <-]. by apply keys_not_ValueError in Hkeys. }
  assert (forall a y e, types_of a y = inl e -> is_ValueError e = false) as Htypes_error.
  { intros a y e. unfold types_of.
    destruct (subscript y "geometry") as [e'|geometry] eqn:Hgeometry; simpl.
    - intros [= <-]. by apply subscript_not_ValueError in Hgeometry.
    - destruct (subscript geometry "type") as [e'|tag] eqn:Htag; simpl.
      + intros [= <-]. by apply subscript_not_ValueError in Htag.
      + apply set_add_not_ValueError. }
  destruct (foldE columns_of ∅ features) as [e|columns] eqn:Hcolumns; simpl.
  { exists e. split; [done|]. by apply (foldE_error columns_of _ features Hcolumns_error ∅). }
  destruct Hincomplete as [Hproperties|Hgeometry].
  - destruct (foldE_fails columns_of features feature Hin) with (a := (∅ : gset string))
      as [e He]; [|congruence].
    intros a. unfold columns_of.
    destruct (subscript feature "properties") as [e|v] eqn:Hsub; simpl; [by exists e|].
    destruct v as [| | | | | |properties]; simpl; try by eexists.
    by destruct (Hproperties properties).
  - destruct (list_find _ d) as [[i kv]|]; simpl.
    all: destruct (foldE_fails types_of features feature Hin) with (a := ([] : list value))
      as [e He];
      [intros a; unfold types_of;
       destruct (subscript feature "geometry") as [e|geometry] eqn:Hsub; simpl;
       [by exists e|];
       destruct (subscript geometry "type") as [e|tag] eqn:Htag; simpl;
       [by exists e|]; by destruct (Hgeometry geometry tag)
      |rewrite He; exists e; split; [done|];
       by apply (foldE_error types_of _ features Htypes_error [])].
Qed.

(** X12: an upload within the cap whose document has a list under
    "features" is answered 500, with the message of the exception and
    one ERROR record, as soon as one feature has no dict under
    "properties" or no geometry with a "type" -- whatever the other
    features are.  GeoJSON allows both: a feature's "properties" and
    "geometry" may be null. *)
Theorem upload_of_incomplete_feature `{GeoLib} `{JsonLib} (file : UploadFile) (w : world)
    (geojson_data : value) (features : list value) (feature : value) :
  endswith (filename file) ".geojson" = true ->
  body_size file <= MAX_UPLOAD_SIZE ->
  json_loads (file_bytes file) = inr geojson_data ->
  subscript geojson_data "features" = inr (VList features) ->
  feature ∈ features ->
  incomplete_feature feature ->
  exists msg,
    run (upload_geojson file) w =
      (inr (JSONResponse 500 (error_body msg)), w,
       [EvFileRead; EvJsonLoads; EvLog ERROR ("Unexpected error: " ++ msg)]).
Proof.
  intros Hext Hsize Hloads Hfeatures Hin Hincomplete.
  rewrite (upload_geojson_run file w Hext).
  assert ((body_size file >? MAX_UPLOAD_SIZE) = false) as ->.
  { apply not_true_iff_false. rewrite Z.gtb_gt. lia. }
  rewrite Hloads. unfold answer_parsed.
  destruct (subscript_contains _ _ _ Hfeatures) as [-> _].
  destruct (summary_of_incomplete geojson_data features feature Hfeatures Hin Hincomplete)
    as (e & -> & He).
  simpl. rewrite He. by exists (exn_str e).
Qed.

(** A record of two sightings, the second without a location. *)
Module Sightings.
Definition text : string :=
  "{" ++ Survey.q "type" ++ ": " ++ Survey.q "FeatureCollection" ++ ", " ++
  Survey.q "features" ++ ": [" ++
  Survey.feature_text "Point" "[1, 2]" (Survey.q "species" ++ ": " ++ Survey.q "Otter") ++
  ", {" ++ Survey.q "type" ++ ": " ++ Survey.q "Feature" ++ ", " ++
  Survey.q "geometry" ++ ": null, " ++
  Survey.q "properties" ++ ": {" ++ Survey.q "species" ++ ": " ++ Survey.q "Heron" ++
  "}}]}".

Definition unlocated : value :=
  VDict [("type", VStr "Feature"); ("geometry", VNone);
         ("properties", VDict [("species", VStr "Heron")])].

Definition features : list value := [
  Survey.feature "Point" (Survey.position 1 2) [("species", VStr "Otter")];
  unlocated
].

Definition document : value :=
  VDict [("type", VStr "FeatureCollection"); ("features", VList features)].

Definition loads (content : list byte) : exn + value :=
  Documents.find_document [(text, inr document)] content.

Definition json : JsonLib := {| json_loads := loads |}.

Definition upload : UploadFile :=
  geojson_upload (String.list_byte_of_string text).
End Sightings.

Lemma upload_of_incomplete_feature_witness :
  exists msg,
    run (@upload_geojson plane_geo Sightings.json Sightings.upload) Town.loaded =
      (inr (JSONResponse 500 (error_body msg)), Town.loaded,
       [EvFileRead; EvJsonLoads; EvLog ERROR ("Unexpected error: " ++ msg)]).
Proof.
  apply (@upload_of_incomplete_feature plane_geo Sightings.json Sightings.upload
           Town.loaded Sightings.document Sightings.features Sightings.unlocated).
  - reflexivity.
  - vm_compute. discriminate.
  - vm_compute. reflexivity.
  - reflexivity.
  - right. left.
  - right. intros geometry tag [= <-]. discriminate.
Defined.

(** X13: the upload handler never lets an exception out and never touches
    the frames: every upload is answered with a JSON response of status
    200, 400 or 500.  It is 200, with a JSON compliant body, only for a
    file named *.geojson, within the cap, whose content parsed to a
    container holding "features";
    with 400 and 500 the body is an "error" object, and 500 is only
    answered for a well-named file within the cap whose content parsed
    or made the parser raise something other than a [ValueError]. *)
Theorem upload_always_answers `{GeoLib} `{JsonLib} (file : UploadFile) (w : world) :
  exists (status : Z) (content : value) (log : list event),
    run (upload_geojson file) w = (inr (JSONResponse status content), w, log) /\
    ((status = 200 /\
      endswith (filename file) ".geojson" = true /\
      body_size file <= MAX_UPLOAD_SIZE /\
      exists geojson_data,
        json_loads (file_bytes file) = inr geojson_data /\
        contains geojson_data "features" = inr true /\
        json_compliant content = true) \/
     (status = 400 /\ exists msg, content = error_body msg) \/
     (status = 500 /\
      (exists msg, content = error_body msg) /\
      endswith (filename file) ".geojson" = true /\
      body_size file <= MAX_UPLOAD_SIZE /\
      ((exists e, json_loads (file_bytes file) = inl e /\ is_ValueError e = false) \/
       exists geojson_data, json_loads (file_bytes file) = inr geojson_data))).
Proof.
  destruct (endswith (filename file) ".geojson") eqn:Hext.
  - rewrite (upload_geojson_run file w Hext).
    destruct (body_size file >? MAX_UPLOAD_SIZE) eqn:Hsize.
    { eexists _, _, _. split; [reflexivity|]. right. left. split; [done|]. by eexists. }
    assert (body_size file <= MAX_UPLOAD_SIZE) as Hle.
    { apply not_true_iff_false in Hsize. rewrite Z.gtb_gt in Hsize. lia. }
    assert (forall e : exn,
      (exists e', json_loads (file_bytes file) = inl e' /\ is_ValueError e' = false) \/
      (exists geojson_data, json_loads (file_bytes file) = inr geojson_data) ->
      exists status content,
        JSONResponse (if is_ValueError e then 400 else 500) (error_body (exn_str e)) =
          JSONResponse status content /\
        ((status = 200 /\
          true = true /\ body_size file <= MAX_UPLOAD_SIZE /\
          exists geojson_data,
            json_loads (file_bytes file) = inr geojson_data /\
            contains geojson_data "features" = inr true /\
            json_compliant content = true) \/
         (status = 400 /\ exists msg, content = error_body msg) \/
         (status = 500 /\
          (exists msg, content = error_body msg) /\
          true = true /\ body_size file <= MAX_UPLOAD_SIZE /\
          ((exists e', json_loads (file_bytes file) = inl e' /\ is_ValueError e' = false) \/
           exists geojson_data, json_loads (file_bytes file) = inr geojson_data))))
      as Hfailed.
    { intros e Hwhy. destruct (is_ValueError e); eexists _, _; (split; [reflexivity|]).
      - right. left. split; [done|]. by eexists.
      - right. right. split; [done|]. split; [by eexists|]. by repeat split. }
    destruct (json_loads (file_bytes file)) as [e|geojson_data] eqn:Hloads.
    { destruct (is_ValueError e) eqn:He; eexists _, _, _; (split; [reflexivity|]).
      - right. left. split; [done|]. by eexists.
      - right. right. split; [done|]. split; [by eexists|]. split; [done|].
        split; [done|]. left. by exists e. }
    unfold answer_parsed.
    destruct (contains geojson_data "features") as [e|[]] eqn:Hcontains.
    + destruct (Hfailed e) as (status & content & -> & Hcases); [right; by eexists|].
      by eexists _, _, _.
    + destruct (summary_of geojson_data) as [e|summary] eqn:Hsummary; simpl.
      { destruct (Hfailed e) as (status & content & -> & Hcases); [right; by eexists|].
        by eexists _, _, _. }
      unfold rendered. destruct (json_compliant summary) eqn:Hcompliant; simpl.
      * eexists _, _, _. split; [reflexivity|]. left.
        split; [done|]. split; [done|]. split; [done|]. by exists geojson_data.
      * eexists _, _, _. split; [reflexivity|]. right. left. split; [done|]. by eexists.
    + simpl. eexists _, _, _. split; [reflexivity|]. right. left.
      split; [done|]. by eexists.
  - unfold upload_geojson, try_except. rewrite Hext.
    eexists _, _, _. split; [reflexivity|]. right. left. split; [done|]. by eexists.
Qed.

(** * Start-up: the five datasets are read when the module is imported *)

(** The file system as [os.path.exists] and [gpd.read_file] see it:
    whether a path exists, and the frame read from it or the message of
    the exception raised. *)
Class FileSystem `{GeoLib} : Type := {
  path_exists : string -> bool;
  read_file : string -> string + GeoDataFrame
}.

(** The exceptions [load_geojson] raises. *)
Inductive load_exn : Type :=
  | FileNotFoundError (msg : string)
  | RuntimeError (msg : string).

(** What loading leaves behind: looks at the file system and records
    sent to the logger. *)
Inductive load_event : Type :=
  | LdExists (path : string)
  | LdReadFile (path : string)
  | LdLog (lvl : level) (msg : string).

(** [os.path.join(a, b)] on POSIX. *)
Definition join (a b : string) : string :=
  if String.prefix "/" b then b
  else if String.eqb a EmptyString || endswith a "/" then a ++ b
  else a ++ "/" ++ b.

Section Startup.
Context `{FileSystem}.

(** Module-level code runs against the log and ends with a value or with
    an exception, which aborts the import. *)
Definition L (A : Type) : Type :=
  list load_event -> (load_exn + A) * list load_event.

#[global] Instance L_ret : MRet L := fun _ a l => (inr a, l).
#[global] Instance L_bind : MBind L := fun _ _ f m l =>
  match m l with
  | (inl e, l') => (inl e, l')
  | (inr a, l') => f a l'
  end.

Definition note (ev : load_event) : L unit := fun l => (inr tt, (l ++ [ev])%list).
Definition throw {A : Type} (e : load_exn) : L A := fun l => (inl e, l).

(** [base_path] is the directory of routes.py. *)
Definition load_geojson (base_path filepath : string) : L GeoDataFrame :=
  let full_path := join base_path filepath in
  note (LdExists full_path);;
  if negb (path_exists full_path) then
    note (LdLog ERROR ("File not found: " ++ full_path));;
    throw (FileNotFoundError ("File not found: " ++ full_path))
  else
    note (LdReadFile full_path);;
    match read_file full_path with
    | inr gdf => mret gdf
    | inl e =>
        note (LdLog ERROR ("Error loading file " ++ full_path ++ ": " ++ e));;
        throw (RuntimeError ("Error loading file " ++ full_path ++ ": " ++ e))
    end.

(** The five assignments of lines 91-95. *)
Definition startup (base_path : string) : L world :=
  gp_gdf ← load_geojson base_path "../data/GP_Surgeries.geojson";
  pharmacy_gdf ← load_geojson base_path "../data/Pharmacies.geojson";
  bins_gdf ← load_geojson base_path "../data/Dog_Litter_bins_incidents_(all).geojson";
  nature_reserves_gdf ← load_geojson base_path "../data/Local_nature_reserves.geojson";
  conservation_areas_gdf ← load_geojson base_path "../data/Conservation_Areas.geojson";
  mret (mkWorld _ gp_gdf pharmacy_gdf bins_gdf nature_reserves_gdf conservation_areas_gdf).

(** The dataset files in the order of the assignments. *)
Definition dataset_files : list string := [
  "../data/GP_Surgeries.geojson";
  "../data/Pharmacies.geojson";
  "../data/Dog_Litter_bins_incidents_(all).geojson";
  "../data/Local_nature_reserves.geojson";
  "../data/Conservation_Areas.geojson"
].

(** Loading a list of files one after another, as the assignments do. *)
Fixpoint load_in_order (base_path : string) (files : list string)
    : L (list GeoDataFrame) :=
  match files with
  | [] => mret []
  | filepath :: files' =>
      gdf ← load_geojson base_path filepath;
      gdfs ← load_in_order base_path files';
      mret (gdf :: gdfs)
  end.

(** The file is there and is read as [gdf]. *)
Definition read_as (base_path filepath : string) (gdf : GeoDataFrame) : Prop :=
  path_exists (join base_path filepath) = true /\
  read_file (join base_path filepath) = inr gdf.

(** The trace of loading files that are there and readable. *)
Definition checks (base_path : string) (files : list string) : list load_event :=
  files ≫= fun filepath =>
    [LdExists (join base_path filepath); LdReadFile (join base_path filepath)].

(** The file is missing or unreadable: the exception raised for it and
    the trace it leaves, with one ERROR record of the same message. *)
Definition load_failure (base_path filepath : string) (e : load_exn)
    (trace : list load_event) : Prop :=
  let full_path := join base_path filepath in
  (path_exists full_path = false /\
   e = FileNotFoundError ("File not found: " ++ full_path) /\
   trace = [LdExists full_path; LdLog ERROR ("File not found: " ++ full_path)]) \/
  (path_exists full_path = true /\
   exists msg,
     read_file full_path = inl msg /\
     e = RuntimeError ("Error loading file " ++ full_path ++ ": " ++ msg) /\
     trace = [LdExists full_path; LdReadFile full_path;
              LdLog ERROR ("Error loading file " ++ full_path ++ ": " ++ msg)]).

(** Start-up ended well with the five frames as read and no record
    logged, or it ended at the first file, in the order of the
    assignments, that is missing or unreadable. *)
Definition all_or_first_failure (base_path : string) (files : list string)
    (outcome : load_exn + list GeoDataFrame) (log : list load_event) : Prop :=
  match outcome with
  | inr gdfs =>
      Forall2 (read_as base_path) files gdfs /\ log = checks base_path files
  | inl e =>
      exists good bad rest trace,
        files = (good ++ bad :: rest)%list /\
        Forall (fun filepath => exists gdf, read_as base_path filepath gdf) good /\
        load_failure base_path bad e trace /\
        log = (checks base_path good ++ trace)%list
  end.
End Startup.

Lemma load_geojson_spec `{FileSystem} (base_path filepath : string)
    (l : list load_event) :
  match load_geojson base_path filepath l with
  | (inr gdf, l') =>
      read_as base_path filepath gdf /\
      l' = (l ++ checks base_path [filepath])%list
  | (inl e, l') =>
      exists trace, load_failure base_path filepath e trace /\ l' = (l ++ trace)%list
  end.
Proof.
  unfold load_geojson, read_as, load_failure, checks, note, throw, mbind, L_bind, mret, L_ret.
  simpl. destruct (path_exists (join base_path filepath)) eqn:Hexists; simpl.
  - destruct (read_file (join base_path filepath)) as [msg|gdf] eqn:Hread; simpl.
    + eexists. split; [right; split; [done|]; exists msg; done|].
      by rewrite <- !app_assoc.
    + split; [done|]. by rewrite <- !app_assoc.
  - eexists. split; [by left|]. by rewrite <- !app_assoc.
Qed.

Lemma load_in_order_spec `{FileSystem} (base_path : string) (files : list string) :
  forall l : list load_event,
  exists log,
    (load_in_order base_path files l).2 = (l ++ log)%list /\
    all_or_first_failure base_path files (load_in_order base_path files l).1 log.
Proof.
  induction files as [|filepath files IH]; intros l.
  - exists []. split; [by rewrite app_nil_r|]. by split.
  - simpl. unfold mbind, L_bind.
    pose proof (load_geojson_spec base_path filepath l) as Hload.
    destruct (load_geojson base_path filepath l) as [[e|gdf] l']; simpl in Hload.
    + destruct Hload as (trace & Hfailure & ->). exists trace. split; [done|].
      by exists [], filepath, files, trace.
    + destruct Hload as [Hread ->].
      destruct (IH (l ++ checks base_path [filepath])%list) as (log & Hlog & Hrest).
      destruct (load_in_order base_path files _) as [[e|gdfs] l'].
      * simpl in *. exists (checks base_path [filepath] ++ log)%list.
        split; [by rewrite app_assoc|].
        destruct Hrest as (good & bad & rest & trace & -> & Hgood & Hfailure & ->).
        exists (filepath :: good), bad, rest, trace.
        split; [done|]. split; [constructor; [by exists gdf|done]|]. split; [done|].
        reflexivity.
      * simpl in *. exists (checks base_path [filepath] ++ log)%list.
        split; [by rewrite app_assoc|].
        destruct Hrest as [Hall ->]. split; [by constructor|]. reflexivity.
Qed.

(** The five assignments load the dataset files in order. *)
Lemma startup_load_in_order `{FileSystem} (base_path : string) (l : list load_event) :
  startup base_path l =
    match load_in_order base_path dataset_files l with
    | (inr [gp; pharmacy; bins; nature_reserves; conservation_areas], l') =>
        (inr (mkWorld _ gp pharmacy bins nature_reserves conservation_areas), l')
    | (inr _, l') => (inr (mkWorld _ [] [] [] [] []), l')
    | (inl e, l') => (inl e, l')
    end.
Proof.
  unfold startup, dataset_files, load_in_order, mbind, L_bind, mret, L_ret.
  destruct (load_geojson base_path _ l) as [[e|gp] l1]; [done|].
  destruct (load_geojson base_path _ l1) as [[e|pharmacy] l2]; [done|].
  destruct (load_geojson base_path _ l2) as [[e|bins] l3]; [done|].
  destruct (load_geojson base_path _ l3) as [[e|nature_reserves] l4]; [done|].
  by destruct (load_geojson base_path _ l4) as [[e|conservation_areas] l5].
Qed.

(** X14: start-up is all or nothing.  It ends with the globals holding
    the five frames exactly as [gpd.read_file] gave them, each file
    looked up and read once, in order, and nothing logged; or it ends
    with an exception at the first dataset file, in the order of the
    assignments, that is missing ([FileNotFoundError]) or cannot be read
    ([RuntimeError] carrying the reader's message), after one ERROR
    record of the same message, and no later file is looked at. *)
Theorem startup_all_or_first_failure `{FileSystem} (base_path : string) :
  match startup base_path [] with
  | (inr w, log) =>
      all_or_first_failure base_path dataset_files
        (inr [gp_gdf w; pharmacy_gdf w; bins_gdf w; nature_reserves_gdf w;
              conservation_areas_gdf w]) log
  | (inl e, log) => all_or_first_failure base_path dataset_files (inl e) log
  end.
Proof.
  rewrite startup_load_in_order.
  destruct (load_in_order_spec base_path dataset_files []) as (log & Hlog & Hspec).
  destruct (load_in_order base_path dataset_files []) as [[e|gdfs] l']; simpl in *.
  - by subst l'.
  - subst l'. destruct Hspec as [Hall ->].
    pose proof (Forall2_length _ _ _ Hall) as Hlength.
    destruct gdfs as [|gp [|pharmacy [|bins [|nature_reserves
      [|conservation_areas [|extra gdfs]]]]]]; try discriminate.
    by split.
Qed.

(** The town's datasets on disk, complete and with the pharmacies file
    missing and the reserves file damaged. *)
Module Disk.
Definition base_path : string := "/srv/src/app".

Definition files_of (pharmacies reserves : list (string * (string + GeoDataFrame)))
    : list (string * (string + GeoDataFrame)) :=
  ([("/srv/src/app/../data/GP_Surgeries.geojson", inr Town.gps)] ++
   pharmacies ++
   [("/srv/src/app/../data/Dog_Litter_bins_incidents_(all).geojson", inr Town.bins)] ++
   reserves ++
   [("/srv/src/app/../data/Conservation_Areas.geojson", inr Town.areas)])%list.

Definition complete : list (string * (string + GeoDataFrame)) :=
  files_of [("/srv/src/app/../data/Pharmacies.geojson", inr Town.pharmacies)]
           [("/srv/src/app/../data/Local_nature_reserves.geojson", inr Town.reserves)].

Definition damaged : list (string * (string + GeoDataFrame)) :=
  files_of []
           [("/srv/src/app/../data/Local_nature_reserves.geojson",
             inl "Failed to read GeoJSON data")].

Definition find_file (files : list (string * (string + GeoDataFrame)))
    (path : string) : option (string + GeoDataFrame) :=
  snd <$> (snd <$> list_find (fun kv => kv.1 = path) files).

Definition file_system (files : list (string * (string + GeoDataFrame))) : FileSystem := {|
  path_exists path := bool_decide (is_Some (find_file files path));
  read_file path := default (inl "No such file or directory") (find_file files path)
|}.
End Disk.

Example startup_of_the_town :
  @startup plane_geo (Disk.file_system Disk.complete) Disk.base_path [] =
    (inr Town.loaded,
     checks Disk.base_path dataset_files).
Proof. reflexivity. Qed.

Example startup_without_pharmacies :
  @startup plane_geo (Disk.file_system Disk.damaged) Disk.base_path [] =
    (inl (FileNotFoundError "File not found: /srv/src/app/../data/Pharmacies.geojson"),
     [LdExists "/srv/src/app/../data/GP_Surgeries.geojson";
      LdReadFile "/srv/src/app/../data/GP_Surgeries.geojson";
      LdExists "/srv/src/app/../data/Pharmacies.geojson";
      LdLog ERROR "File not found: /srv/src/app/../data/Pharmacies.geojson"]).
Proof. reflexivity. Qed.
